(** * dehydrated-dreamhost-hook: DNS-01 challenge hook and certificate deployment

    A shallow embedding of [hook.py] and [deploy.py].

    Both scripts are sequences of effects on the outside world (HTTP requests
    to the Dreamhost API, DNS queries, sleeps, file operations, shell
    commands) that may stop the process ([sys.exit], an uncaught exception).
    They are embedded in a small state-and-outcome monad: a computation takes
    the state of the process and of the world it talks to and gives back an
    outcome together with the state reached, also when the outcome is fatal,
    so that what had already been done before a fatal exit stays visible.

    [print] calls are narration only and are left out. *)

From Stdlib Require Import ZArith String Ascii List Bool Lia.
From stdpp Require Import gmap strings list fin_maps.

Local Open Scope Z_scope.

(** ** Outcomes and the process monad *)

(** What stops a Python process in these two scripts. *)
Inductive exn : Type :=
  | SystemExit (msg : string)          (* sys.exit(msg) *)
  | IndexError                         (* args[i] out of range *)
  | KeyError (key : string)            (* mapping[key] without that key *)
  | TypeError                          (* indexing a str with a str *)
  | FileNotFoundError (path : string)  (* os.stat / open on a missing path *)
  | SameFileError (src dst : string)   (* shutil.copy of a file onto itself *)
  | YAMLError                          (* yaml.load on a malformed file *)
  | PermissionError (path : string)    (* chown or chmod the process may not do *)
  | IsADirectoryError (path : string)  (* a directory where a file is needed *)
  | NotADirectoryError (path : string) (* a file where a directory is needed *)
  | SpecialFileError (path : string)   (* shutil.copy on a named pipe *)
  | OSError (path : string)            (* any other refusal of the system *)
  | ValueError.                        (* a NUL byte in a command line *)

(** [Pending] is the outcome of a run that is still inside its polling loop
    after every resolver reply it was given: the loop of [deploy_challenge]
    has no bound of its own. *)
Inductive outcome (A : Type) : Type :=
  | Returns (a : A)
  | Raises (e : exn)
  | Pending.

Arguments Returns {A} a.
Arguments Raises {A} e.
Arguments Pending {A}.

Definition M (S A : Type) : Type := S -> outcome A * S.

Definition ret {S A} (a : A) : M S A := fun s => (Returns a, s).

Definition bind {S A B} (m : M S A) (k : A -> M S B) : M S B :=
  fun s =>
    match m s with
    | (Returns a, s') => k a s'
    | (Raises e, s') => (Raises e, s')
    | (Pending, s') => (Pending, s')
    end.

Definition raise {S A} (e : exn) : M S A := fun s => (Raises e, s).

Definition gets {S A} (f : S -> A) : M S A := fun s => (Returns (f s), s).

Definition modify {S} (f : S -> S) : M S unit := fun s => (Returns tt, f s).

Declare Scope proc_scope.
Delimit Scope proc_scope with proc.

Notation "x <- m ;; k" := (bind m (fun x => k))
  (at level 100, m at next level, right associativity) : proc_scope.
Notation "m ;;; k" := (bind m (fun _ => k))
  (at level 100, right associativity) : proc_scope.

(** ** hook.py *)

Module Hook.

(** *** The Dreamhost record store *)

(** One entry of the [data] array of a [dns-list_records] response. *)
Record dns_item : Type := mk_item {
  record : string;
  type : string;
  value : string
}.

#[global] Instance dns_item_eq_dec : EqDecision dns_item.
Proof. solve_decision. Defined.

(** The [data] field of a response is an array of records for a list call and
    a message for the other calls. *)
Inductive payload : Type :=
  | Records (items : list dns_item)
  | Text (msg : string).

Record response : Type := mk_response {
  result : string;
  data : payload
}.

(** The provider is an external collaborator. It is modelled as the record
    store the spec describes: a list call returns every record, an add call
    appends a record (a record of the same name and another value is kept, not
    overwritten), a remove call deletes the records equal to the one named.
    The command is read from the [cmd] query parameter, the record from
    [record], [type] and [value]. A request that fails at the transport level
    raises in [requests.get] and ends the process before the provider
    receives anything further; such runs are not modelled. *)
Definition dreamhost_api (params : gmap string string) (zone : list dns_item)
  : response * list dns_item :=
  let named :=
    match params !! "record", params !! "type", params !! "value" with
    | Some r, Some t, Some v => Some (mk_item r t v)
    | _, _, _ => None
    end in
  if bool_decide (params !! "cmd" = Some "dns-list_records") then
    (mk_response "success" (Records zone), zone)
  else if bool_decide (params !! "cmd" = Some "dns-add_record") then
    match named with
    | Some i =>
        if bool_decide (i ∈ zone)
        then (mk_response "error" (Text "record_already_exists_remove_first"), zone)
        else (mk_response "success" (Text "record_added"), zone ++ [i])
    | None => (mk_response "error" (Text "no_record"), zone)
    end
  else if bool_decide (params !! "cmd" = Some "dns-remove_record") then
    match named with
    | Some i =>
        if bool_decide (i ∈ zone)
        then (mk_response "success" (Text "record_removed"),
              filter (fun j => j ≠ i) zone)
        else (mk_response "error" (Text "no_such_record"), zone)
    | None => (mk_response "error" (Text "no_record"), zone)
    end
  else (mk_response "error" (Text "invalid_cmd"), zone).

(** *** The resolver *)

(** The subclasses of [dns.exception.DNSException] that
    [dns.resolver.query] raises. *)
Inductive DNSException : Type :=
  | Timeout | NXDOMAIN | YXDOMAIN | NoAnswer | NoNameservers.

(** A TXT rdata is a sequence of character strings (its segments). *)
Definition rdata : Type := list string.

Inductive resolver_reply : Type :=
  | Answer (rdatas : list rdata)
  | QueryFailed (e : DNSException).

(** *** Events and the state of a hook process *)

Inductive event : Type :=
  | Http (url : string) (params : gmap string string)  (* requests.get *)
  | Query (name : string) (rdtype : string)            (* dns.resolver.query *)
  | Sleep (seconds : Z).                               (* time.sleep *)

(** The module globals that are written after import, and the world. There is
    one [HOST_API_PARAMS] dictionary: [remove_params], [add_params] and
    [exist_params] are other names of that same object, so a write through
    any of them is a write to this field. *)
Record state : Type := mk_state {
  HOST_API_PARAMS : gmap string string;
  DNS_COUNTER : Z;
  zone : list dns_item;     (* the records held by the provider *)
  trace : list event        (* what the process has done, oldest first *)
}.

Definition DNS_PREFIX : string := "_acme-challenge".
Definition HOST_API_ROOT : string := "https://api.dreamhost.com".

(** State of a process right after the module is imported. *)
Definition initial_state (HOST_API_KEY : string) (z : list dns_item) : state :=
  mk_state (<["format" := "json"]> (<["key" := HOST_API_KEY]> ∅)) 0 z [].

Definition set_param (k v : string) : M state unit :=
  modify (fun s => mk_state (<[k := v]> (HOST_API_PARAMS s)) (DNS_COUNTER s)
                            (zone s) (trace s)).

Definition emit (e : event) : M state unit :=
  modify (fun s => mk_state (HOST_API_PARAMS s) (DNS_COUNTER s) (zone s)
                            (trace s ++ [e])).

Definition sleep (seconds : Z) : M state unit := emit (Sleep seconds).

(** [requests.get(HOST_API_ROOT, params=HOST_API_PARAMS)] followed by
    [res.json()]: the dictionary is sent as it is at the time of the call. *)
Definition requests_get : M state response :=
  fun s =>
    let p := HOST_API_PARAMS s in
    let '(res, z) := dreamhost_api p (zone s) in
    (Returns res,
     mk_state p (DNS_COUNTER s) z (trace s ++ [Http HOST_API_ROOT p])).

Local Open Scope proc_scope.

Definition remove_record (record value : string) : M state response :=
  set_param "cmd" "dns-remove_record" ;;;
  set_param "record" record ;;;
  set_param "type" "TXT" ;;;
  set_param "value" value ;;;
  requests_get.

Definition add_record (record value : string) : M state response :=
  set_param "cmd" "dns-add_record" ;;;
  set_param "record" record ;;;
  set_param "type" "TXT" ;;;
  set_param "value" value ;;;
  requests_get.

(** The [for] loop of [record_exists] over the array of records. The pair
    [(True, value)] is [Some value] and [(False, None)] is [None]. *)
Fixpoint find_record (name : string) (items : list dns_item) : option string :=
  match items with
  | [] => None
  | dns_item :: rest =>
      if bool_decide (record dns_item = name)
      then Some (value dns_item)
      else find_record name rest
  end.

(** When [data] is a message the loop runs over its characters, and
    [dns_item['record']] on a character is a [TypeError]. *)
Definition record_exists (record : string) : M state (option string) :=
  set_param "cmd" "dns-list_records" ;;;
  dns_list <- requests_get ;;
  match data dns_list with
  | Records items => ret (find_record record items)
  | Text msg =>
      if bool_decide (msg = EmptyString) then ret None else raise TypeError
  end.

(** *** Text form of a TXT rdata *)

Definition dquote : ascii := ascii_of_nat 34.
Definition backslash : ascii := ascii_of_nat 92.

Definition digit (n : nat) : ascii := ascii_of_nat (48 + n).

(** dnspython's [_escapify] on one byte: a double quote or a backslash gets a
    backslash in front, a printable byte stays, any other byte becomes a
    backslash and its three decimal digits. *)
Definition escapify_byte (c : ascii) : string :=
  let n := nat_of_ascii c in
  if bool_decide (c = dquote \/ c = backslash) then
    String backslash (String c EmptyString)
  else if ((32 <=? n) && (n <? 127))%nat then
    String c EmptyString
  else
    String backslash
      (String (digit (n / 100))
         (String (digit ((n / 10) mod 10))
            (String (digit (n mod 10)) EmptyString))).

Fixpoint _escapify (qstring : string) : string :=
  match qstring with
  | EmptyString => EmptyString
  | String c rest => escapify_byte c +:+ _escapify rest
  end.

(** The loop of dnspython's [TXTBase.to_text]: every segment is escaped and
    put between double quotes, and the segments are separated by one space. *)
Fixpoint to_text_from (prefix : string) (strings : list string) : string :=
  match strings with
  | [] => EmptyString
  | s :: rest =>
      prefix +:+ String dquote (_escapify s) +:+ String dquote EmptyString
        +:+ to_text_from " " rest
  end.

Definition to_text (rd : rdata) : string := to_text_from EmptyString rd.

(** The Python slice [s[1:-1]]: [s] without its first and its last character,
    empty when [s] has fewer than three characters. *)
Definition slice_1_m1 (s : string) : string :=
  String.substring 1 (String.length s - 2) s.

(** *** Propagation polling *)

Definition bump_counter : M state unit :=
  modify (fun s => mk_state (HOST_API_PARAMS s) (DNS_COUNTER s + 1) (zone s)
                            (trace s)).

(** [reply] is what [dns.resolver.query(record, 'TXT')] gives on this call:
    an answer, or one of the exceptions of the [except] clause. *)
Definition has_dns_propagated (record value : string) (reply : resolver_reply)
  : M state bool :=
  emit (Query record "TXT") ;;;
  match reply with
  | QueryFailed _ => ret false
  | Answer answer =>
      let txt_records := map (fun rdata => slice_1_m1 (to_text rdata)) answer in
      if bool_decide (value ∈ txt_records) then
        bump_counter ;;;
        seen <- gets DNS_COUNTER ;;
        if seen =? 3 then ret true else ret false
      else ret false
  end.

(** The [while] loop of [deploy_challenge], over the replies the resolver
    gives to the successive polls of the run. *)
Fixpoint wait_for_propagation (record token : string)
    (replies : list resolver_reply) : M state unit :=
  match replies with
  | [] => fun s => (Pending, s)
  | reply :: later =>
      propagated <- has_dns_propagated record token reply ;;
      if propagated then ret tt
      else sleep 30 ;;; wait_for_propagation record token later
  end.

(** *** The hook operations *)

(** [deploy_challenge] and [clean_challenge], on the argument list the
    dispatcher [run_hook] hands them ([args[1:]] of the command line). The
    other operations only print or call [deploy.run_deployment], which is
    embedded below. [replies] is what the resolver answers to the successive
    polls of the run. *)

Definition arg (args : list string) (i : nat) : M state string :=
  match args !! i with
  | Some a => ret a
  | None => raise IndexError
  end.

Definition deploy_challenge (args : list string)
    (replies : list resolver_reply) : M state unit :=
  domain <- arg args 0 ;;
  token <- arg args 2 ;;
  let record := DNS_PREFIX +:+ "." +:+ domain in
  found <- record_exists record ;;
  match found with
  | Some value => remove_record record value ;;; sleep 10
  | None => ret tt
  end ;;;
  add_record record token ;;;
  sleep 10 ;;;
  wait_for_propagation record token replies.

Definition clean_challenge (args : list string) : M state unit :=
  domain <- arg args 0 ;;
  let record := DNS_PREFIX +:+ "." +:+ domain in
  found <- record_exists record ;;
  match found with
  | Some value => sleep 30 ;;; remove_record record value ;;; ret tt
  | None => ret tt
  end.

(** *** Reading a trace *)

(** The provider calls of a trace, by the command each request carries. *)
Inductive api_call : Type :=
  | ListRecords
  | AddRecord (record type value : option string)
  | RemoveRecord (record type value : option string)
  | OtherCall.

Definition api_call_of (params : gmap string string) : api_call :=
  if bool_decide (params !! "cmd" = Some "dns-list_records") then ListRecords
  else if bool_decide (params !! "cmd" = Some "dns-add_record") then
    AddRecord (params !! "record") (params !! "type") (params !! "value")
  else if bool_decide (params !! "cmd" = Some "dns-remove_record") then
    RemoveRecord (params !! "record") (params !! "type") (params !! "value")
  else OtherCall.

Fixpoint api_calls (t : list event) : list api_call :=
  match t with
  | [] => []
  | Http _ params :: rest => api_call_of params :: api_calls rest
  | _ :: rest => api_calls rest
  end.

(** Whether a reply confirms the token, as the membership test of
    [has_dns_propagated] has it. *)
Definition confirms (token : string) (reply : resolver_reply) : bool :=
  match reply with
  | QueryFailed _ => false
  | Answer answer =>
      bool_decide (token ∈ map (fun rdata => slice_1_m1 (to_text rdata)) answer)
  end.

(** The dictionary after the four writes of [remove_record] or [add_record]. *)
Definition written (cmd record value : string) (p : gmap string string)
  : gmap string string :=
  <["value" := value]> (<["type" := "TXT"]> (<["record" := record]>
    (<["cmd" := cmd]> p))).

(** The events a computation added to the trace. *)
Definition since (before after : state) : list event :=
  drop (length (trace before)) (trace after).

(** The request of a [record_exists r'] call made in state [s1] carries the
    record [r], the type TXT and the value [v] next to its own command, and
    these three entries are in the dictionary of [s1]. *)
Definition sends_stale (r v r' : string) (s1 : state) : Prop :=
  (HOST_API_PARAMS s1 !! "record" = Some r
   /\ HOST_API_PARAMS s1 !! "type" = Some "TXT"
   /\ HOST_API_PARAMS s1 !! "value" = Some v)
  /\ exists p,
       since s1 (record_exists r' s1).2 = [Http HOST_API_ROOT p]
       /\ p !! "cmd" = Some "dns-list_records"
       /\ p !! "record" = Some r
       /\ p !! "type" = Some "TXT"
       /\ p !! "value" = Some v.

(** The number of resolver polls in a trace. *)
Fixpoint polls (t : list event) : nat :=
  match t with
  | [] => 0
  | Query _ _ :: rest => S (polls rest)
  | _ :: rest => polls rest
  end.

Fixpoint hits (token : string) (replies : list resolver_reply) : nat :=
  match replies with
  | [] => 0
  | reply :: later =>
      ((if confirms token reply then 1 else 0) + hits token later)%nat
  end.

(** The events of [n] unsuccessful polls of the loop. *)
Fixpoint unsuccessful_polls (record : string) (n : nat) : list event :=
  match n with
  | O => []
  | S m => Query record "TXT" :: Sleep 30 :: unsuccessful_polls record m
  end.

(** The last three of the first [n] replies all confirm the token. *)
Definition last_three_confirm (token : string) (replies : list resolver_reply)
    (n : nat) : Prop :=
  (3 <= n)%nat /\
  forall i, (n - 3 <= i < n)%nat ->
    exists reply, replies !! i = Some reply /\ confirms token reply = true.

(** A byte that [_escapify] leaves as it is. *)
Definition plain_byte (c : ascii) : bool :=
  negb (bool_decide (c = dquote \/ c = backslash))
  && (32 <=? nat_of_ascii c)%nat && (nat_of_ascii c <? 127)%nat.

Fixpoint plain (s : string) : bool :=
  match s with
  | EmptyString => true
  | String c rest => plain_byte c && plain rest
  end.

(** What the slice leaves of the text of the segments after the first:
    each still behind the closing quote of the one before, a space and its
    own opening quote. *)
Fixpoint later_segments (strings : list string) : string :=
  match strings with
  | [] => EmptyString
  | s :: rest =>
      String dquote (String " " (String dquote (_escapify s)))
        +:+ later_segments rest
  end.

(** The segments of a TXT record put one after the other. *)
Fixpoint joined (strings : list string) : string :=
  match strings with
  | [] => EmptyString
  | s :: rest => s +:+ joined rest
  end.

End Hook.

(** ** deploy.py *)

Module Deploy.

(** *** Files *)

(** A file-system object as [os.stat] and a read see it. [content] is the
    sequence of its bytes; [st_mode] is the whole mode word, file type and
    permission bits. [st_mtime] is the float that [os.stat] reports in its
    [st_mtime] attribute, not the timestamp of the file system it is rounded
    from; it is written as the integer number of units of 2^-1074 seconds
    that the float is, so that two reports are equal floats exactly when the
    two integers are equal. *)
Record file : Type := mk_file {
  content : string;
  st_uid : Z;
  st_gid : Z;
  st_mode : Z;
  st_mtime : Z
}.

#[global] Instance file_eq_dec : EqDecision file.
Proof. solve_decision. Defined.

Definition S_IFMT : Z := 0xF000.    (* 0o170000 *)
Definition S_IFREG : Z := 0x8000.   (* 0o100000 *)
Definition S_IFDIR : Z := 0x4000.   (* 0o040000 *)
Definition S_IFIFO : Z := 0x1000.   (* 0o010000 *)
Definition S_IFSOCK : Z := 0xC000.  (* 0o140000 *)

(** [stat.S_IMODE]: the bits [os.chmod] can set. *)
Definition S_IMODE (mode : Z) : Z := Z.land mode 0xFFF.   (* 0o7777 *)

(** The file system is a map from paths to the objects at them: a path that
    is not in the map holds nothing. A directory is an object of type
    [S_IFDIR], and what it holds are the objects whose paths lie under its
    path. The map is the part of the file system the run can name: a
    directory that is in it is there with all it holds, the directories
    above its paths that are not in it exist and are named by nothing, no
    path is a symbolic link and no file has two paths. The process has the
    effective user and group [euid] and [egid] and no other group, and it is
    privileged when [euid] is 0; it may read and write the files and the
    directories the program names, and what depends on who it is are the
    changes of owner and of mode. [now] is the [st_mtime] that [os.stat]
    reports for a file written at the time of the run. [launched] logs the
    post-deployment actions in the order they were started, each with the
    status [subprocess.call] returned or [None] when it raised [OSError]. *)
Record state : Type := mk_state {
  fs : gmap string file;
  euid : Z;
  egid : Z;
  now : Z;
  launched : list (string * option Z)
}.

Definition set_fs (f : gmap string file -> gmap string file) : M state unit :=
  modify (fun s => mk_state (f (fs s)) (euid s) (egid s) (now s) (launched s)).

Local Open Scope proc_scope.

Definition sys_exit {A} (msg : string) : M state A := raise (SystemExit msg).

Definition os_path_exists (path : string) : M state bool :=
  gets (fun s => bool_decide (is_Some (fs s !! path))).

Definition os_stat (path : string) : M state file :=
  fun s =>
    match fs s !! path with
    | Some f => (Returns f, s)
    | None => (Raises (FileNotFoundError path), s)
    end.

Definition is_a (type : Z) (f : file) : bool :=
  bool_decide (Z.land (st_mode f) S_IFMT = type).

(** [path] lies under the directory [dir]. *)
Definition under (dir path : string) : bool := String.prefix (dir +:+ "/") path.

(** What a directory holds. *)
Definition inside (dir : string) (m : gmap string file) : gmap string file :=
  filter (fun entry => under dir entry.1 = true) m.

(** A directory moves with everything under it. *)
Definition move_tree (src dst : string) (m : gmap string file)
  : gmap string file :=
  let moved := filter (fun entry => entry.1 = src \/ under src entry.1 = true) m in
  let kept :=
    filter (fun entry => ~ (entry.1 = src \/ under src entry.1 = true)
                         /\ entry.1 <> dst) m in
  list_to_map
    (map (fun entry =>
            (dst +:+ String.substring (String.length src)
                       (String.length entry.1 - String.length src) entry.1,
             entry.2))
         (map_to_list moved))
  ∪ kept.

(** [os.rename], as [rename(2)] has it. A file replaces whatever is at [dst]
    unless that is a directory; a directory goes to [dst] with all it holds,
    if [dst] is free or an empty directory and not inside it. *)
Definition os_rename (src dst : string) : M state unit :=
  f <- os_stat src ;;
  s <- gets id ;;
  if bool_decide (src = dst) then ret tt
  else if is_a S_IFDIR f then
    if under src dst then raise (OSError dst)
    else
      match fs s !! dst with
      | Some g =>
          if negb (is_a S_IFDIR g) then raise (NotADirectoryError dst)
          else if bool_decide (inside dst (fs s) = ∅)
               then set_fs (move_tree src dst)
               else raise (OSError dst)
      | None => set_fs (move_tree src dst)
      end
  else
    match fs s !! dst with
    | Some g =>
        if is_a S_IFDIR g then raise (IsADirectoryError dst)
        else set_fs (fun m => <[dst := f]> (delete src m))
    | None => set_fs (fun m => <[dst := f]> (delete src m))
    end.

(** [os.chown], as [chown(2)] has it: a privileged process may give the
    file to anyone; another process may only keep the owner of a file it
    owns and give it to a group it is in. Whether the call clears the
    set-user-ID and set-group-ID bits of the file depends on the system and
    is left out: [deploy_file] sets all the permission bits right after
    it. *)
Definition os_chown (path : string) (uid gid : Z) : M state unit :=
  f <- os_stat path ;;
  s <- gets id ;;
  if bool_decide
       (euid s = 0
        \/ (st_uid f = euid s /\ uid = st_uid f
            /\ (gid = st_gid f \/ gid = egid s)))
  then
    set_fs (fun m =>
      <[path := mk_file (content f) uid gid (st_mode f) (st_mtime f)]> m)
  else raise (PermissionError path).

(** [os.chmod] keeps the type bits of the file and sets the others; only a
    privileged process or the owner of the file may. *)
Definition os_chmod (path : string) (mode : Z) : M state unit :=
  f <- os_stat path ;;
  s <- gets id ;;
  if bool_decide (euid s = 0 \/ st_uid f = euid s) then
    set_fs (fun m =>
      <[path := mk_file (content f) (st_uid f) (st_gid f)
                        (Z.lor (Z.land (st_mode f) S_IFMT) (S_IMODE mode))
                        (st_mtime f)]> m)
  else raise (PermissionError path).

Fixpoint has_sep (p : string) : bool :=
  match p with
  | EmptyString => false
  | String c rest => bool_decide (c = "/"%char) || has_sep rest
  end.

Fixpoint endswith_sep (p : string) : bool :=
  match p with
  | EmptyString => false
  | String c EmptyString => bool_decide (c = "/"%char)
  | String _ rest => endswith_sep rest
  end.

(** [os.path.basename]: what follows the last separator. *)
Fixpoint basename (p : string) : string :=
  match p with
  | EmptyString => EmptyString
  | String c rest =>
      if has_sep rest then basename rest
      else if bool_decide (c = "/"%char) then rest
      else p
  end.

(** One step of [os.path.join]: an absolute component starts over, and a
    separator is put in unless the path so far is empty or ends in one. *)
Definition os_path_join (a b : string) : string :=
  if String.prefix "/" b then b
  else if bool_decide (a = EmptyString) || endswith_sep a then a +:+ b
  else a +:+ "/" +:+ b.

Definition is_pipe (entry : option file) : bool :=
  match entry with
  | Some f => is_a S_IFIFO f
  | None => false
  end.

(** [shutil.copy]: the bytes of [src] go to [dst], or into [dst] when that is
    a directory, and the copy gets the permission bits of [src]. Copying a
    file onto itself and copying from or to a named pipe are refused before
    anything is opened; then [src] is opened, which a directory or a socket
    cannot be, and then [dst]. A file that was there keeps its owner and is
    written in place; a file created by the copy belongs to the process, and
    the permission bits it is created with, which depend on the umask, are
    replaced by the [os.chmod] of [shutil.copymode] that follows. *)
Definition shutil_copy (src dst : string) : M state unit :=
  s <- gets id ;;
  let dst :=
    match fs s !! dst with
    | Some g => if is_a S_IFDIR g then os_path_join dst (basename src) else dst
    | None => dst
    end in
  if bool_decide (src = dst) && bool_decide (is_Some (fs s !! src))
  then raise (SameFileError src dst)
  else if is_pipe (fs s !! src) then raise (SpecialFileError src)
  else if is_pipe (fs s !! dst) then raise (SpecialFileError dst)
  else
    f <- os_stat src ;;
    if is_a S_IFDIR f then raise (IsADirectoryError src)
    else if is_a S_IFSOCK f then raise (OSError src)
    else
      match fs s !! dst with
      | Some g =>
          if is_a S_IFDIR g then raise (IsADirectoryError dst)
          else if is_a S_IFSOCK g then raise (OSError dst)
          else
            set_fs (fun m =>
              <[dst := mk_file (content f) (st_uid g) (st_gid g) (st_mode g)
                               (now s)]> m)
      | None =>
          set_fs (fun m =>
            <[dst := mk_file (content f) (euid s) (egid s) S_IFREG (now s)]> m)
      end ;;;
      os_chmod dst (st_mode f).

(** [filecmp._sig]: file type, size and the float [st_mtime]. *)
Definition _sig (st : file) : Z * nat * Z :=
  (Z.land (st_mode st) S_IFMT, String.length (content st), st_mtime st).

(** [filecmp.cmp(f1, f2)] of the Python standard library, called with its
    default [shallow=True]: two regular files with the same signature are
    taken to be equal without being read; otherwise files of different sizes
    differ, and files of the same size are read and compared. The library
    remembers the result of reading two files under their paths and
    signatures and answers from memory when it is asked again for the same
    paths with the same signatures; this is the comparison with nothing
    remembered for them, as it is the first time a process compares two
    paths with the signatures they have. *)
Definition filecmp_cmp (f1 f2 : string) : M state bool :=
  st1 <- os_stat f1 ;;
  st2 <- os_stat f2 ;;
  let s1 := _sig st1 in
  let s2 := _sig st2 in
  if bool_decide (s1.1.1 ≠ S_IFREG ∨ s2.1.1 ≠ S_IFREG) then ret false
  else if bool_decide (s1 = s2) then ret true
  else if bool_decide (s1.1.2 ≠ s2.1.2) then ret false
  else ret (bool_decide (content st1 = content st2)).

(** *** Deployment *)

Definition LETSENCRYPT_ROOT (domain pem : string) : string :=
  "/etc/dehydrated/certs/" +:+ domain +:+ "/" +:+ pem +:+ ".pem".

Definition ERROR (name files : string) : string :=
  " + ERROR: Could not locate " +:+ name +:+ " files:"
    +:+ String (ascii_of_nat 10) (String (ascii_of_nat 9) files).

Definition deploy_file (file_type old_file new_file : string) : M state bool :=
  same <- filecmp_cmp old_file new_file ;;
  if same then ret false
  else
    stat <- os_stat old_file ;;
    os_rename old_file (old_file +:+ ".bak") ;;;
    shutil_copy new_file old_file ;;;
    os_chown old_file (st_uid stat) (st_gid stat) ;;;
    os_chmod old_file (st_mode stat) ;;;
    ret true.

(** The file [deploy_file] leaves at the destination. *)
Definition deployed_file (old new : file) (process_now : Z) : file :=
  mk_file (content new) (st_uid old) (st_gid old)
    (Z.lor (Z.land (Z.lor S_IFREG (S_IMODE (st_mode new))) S_IFMT)
           (S_IMODE (st_mode old)))
    process_now.

(** A location is a dictionary from file types to destination paths, kept
    as the list of its items in the order the dictionary has them; the loop
    over [location.keys()] that reads [location[file_type]] is a loop over
    these items. [deployed] is the local variable of [deploy_domain]. *)
Definition location : Type := list (string * string).

Fixpoint deploy_file_types (domain : string) (loc : location) (deployed : bool)
  : M state bool :=
  match loc with
  | [] => ret deployed
  | (file_type, old_file) :: rest =>
      let new_file := LETSENCRYPT_ROOT domain file_type in
      new_there <- os_path_exists new_file ;;
      if negb new_there then
        sys_exit (ERROR ("new " +:+ file_type) new_file)
      else
        old_there <- os_path_exists old_file ;;
        if negb old_there then
          sys_exit (ERROR ("old " +:+ file_type) old_file)
        else
          deploy_success <- deploy_file file_type old_file new_file ;;
          deploy_file_types domain rest
            (if deploy_success then true else deployed)
  end.

Fixpoint deploy_locations (domain : string) (config : list location)
    (deployed : bool) : M state bool :=
  match config with
  | [] => ret deployed
  | loc :: rest =>
      deployed' <- deploy_file_types domain loc deployed ;;
      deploy_locations domain rest deployed'
  end.

Definition deploy_domain (domain : string) (config : list location)
  : M state bool :=
  deploy_locations domain config false.

(** The parsed configuration file: a mapping that may or may not have the
    keys [domains] and [post_actions]. *)
Record config : Type := mk_config {
  domains : option (list (string * list location));
  post_actions : option (list string)
}.

Definition key {A} (name : string) (entry : option A) : M state A :=
  match entry with
  | Some a => ret a
  | None => raise (KeyError name)
  end.

(** A machine for the examples: a certificate in service, the certificate
    newly issued for the domain, and a private key in service for which no
    new key has been issued. Both certificates are regular files with mode
    0644. *)
Definition issued_cert : file := mk_file "NEW CERT" 0 0 0x81A4 200.
Definition served_cert : file := mk_file "OLD CERTIFICATE" 33 33 0x81A0 100.
Definition served_key : file := mk_file "OLD KEY" 33 33 0x8180 100.

Definition example_fs : gmap string file :=
  <["/etc/dehydrated/certs/example.com/cert.pem" := issued_cert]>
    (<["/etc/x/cert.pem" := served_cert]>
       (<["/etc/x/privkey.pem" := served_key]> ∅)).

Definition example_state : state := mk_state example_fs 0 0 300 [].

(** A machine whose web server is given a directory of certificates, here
    as the destination of a deployment. *)
Definition example_tree : state :=
  mk_state
    (<["/srv/tls" := mk_file EmptyString 0 0 0x41ED 100]>
       (<["/srv/tls/cert.pem" := served_cert]>
          (<["/etc/dehydrated/certs/example.com/cert.pem" := issued_cert]> ∅)))
    0 0 300 [].

(** What the domains report to [run_deployment], in the order of the run and
    up to the domain at which the run stops, if it does. *)
Fixpoint domain_reports (doms : list (string * list location)) (s : state)
  : list bool :=
  match doms with
  | [] => []
  | (domain, locations) :: rest =>
      match deploy_domain domain locations s with
      | (Returns deployed, s') => deployed :: domain_reports rest s'
      | _ => []
      end
  end.

Section Environment.

(** The home directory of the user as [os.path.expanduser('~')] gives it,
    the YAML parser, and the shell: what [subprocess.call(action,
    shell=True)] returns, [None] when it raises [OSError]. What an action
    does to the machine is outside the model. *)
Variable home : string.
Variable yaml_load : string -> option config.
Variable subprocess_call : string -> option Z.

Definition CONFIG_FILE : string :=
  os_path_join (os_path_join (os_path_join home ".config") "dehydrated")
    "deploy.conf".

Definition parse_config : M state config :=
  there <- os_path_exists CONFIG_FILE ;;
  if negb there then sys_exit (ERROR "deployment config" CONFIG_FILE)
  else
    f <- os_stat CONFIG_FILE ;;
    match yaml_load (content f) with
    | Some c => ret c
    | None => raise YAMLError
    end.

(** The loop over the domains, with its variable [saw_new_deployments]. *)
Fixpoint deploy_domains (doms : list (string * list location))
    (saw_new_deployments : bool) : M state bool :=
  match doms with
  | [] => ret saw_new_deployments
  | (domain, locations) :: rest =>
      deployed <- deploy_domain domain locations ;;
      deploy_domains rest (if deployed then true else saw_new_deployments)
  end.

Fixpoint has_nul (command : string) : bool :=
  match command with
  | EmptyString => false
  | String c rest => bool_decide (c = Ascii.zero) || has_nul rest
  end.

(** [subprocess.call(action, shell=True)] inside the [try]: a command with a
    NUL byte cannot be handed to the shell and raises [ValueError], which the
    [except OSError] clause does not catch. *)
Definition launch (action : string) : M state unit :=
  if has_nul action then raise ValueError
  else
    modify (fun s => mk_state (fs s) (euid s) (egid s) (now s)
                              (launched s ++ [(action, subprocess_call action)])).

Fixpoint run_actions (actions : list string) : M state unit :=
  match actions with
  | [] => ret tt
  | action :: rest => launch action ;;; run_actions rest
  end.

Definition run_deployment : M state unit :=
  config <- parse_config ;;
  doms <- key "domains" (domains config) ;;
  saw_new_deployments <- deploy_domains doms false ;;
  if saw_new_deployments then
    actions <- key "post_actions" (post_actions config) ;;
    run_actions actions
  else ret tt.

End Environment.

(** A configuration for the examples: two domains and one action. Nothing
    has been issued for the second domain. *)
Definition example_config : config :=
  mk_config
    (Some [("example.com", [[("cert", "/etc/x/cert.pem")]]);
           ("example.org", [[("cert", "/etc/y/cert.pem")]])])
    (Some ["service nginx reload"]).

Definition example_machine : state :=
  mk_state
    (<["/root/.config/dehydrated/deploy.conf" := mk_file "domains: ..." 0 0 0x81A4 50]>
       example_fs)
    0 0 300 [].

End Deploy.

(** ** The dispatcher of hook.py *)

Module Main.

(** A hook process has the globals of [hook.py] and the machine [deploy.py]
    works on. *)
Record process : Type := mk_process {
  globals : Hook.state;
  machine : Deploy.state
}.

(** How a hook process ends. [ValueError] is what the tuple assignment
    [domain, result = args] raises on a list that has not two elements. *)
Inductive exit : Type :=
  | Completed
  | Uncaught (e : exn)
  | ValueError
  | StillPolling.

Definition of_outcome (o : outcome unit) : exit :=
  match o with
  | Returns _ => Completed
  | Raises e => Uncaught e
  | Pending => StillPolling
  end.

Definition operation : Type := list string -> process -> exit * process.

Definition in_hook (m : M Hook.state unit) : process -> exit * process :=
  fun p =>
    let '(o, g) := m (globals p) in (of_outcome o, mk_process g (machine p)).

Definition in_deploy (m : M Deploy.state unit) : process -> exit * process :=
  fun p =>
    let '(o, d) := m (machine p) in (of_outcome o, mk_process (globals p) d).

Section Environment.

Variable home : string.
Variable yaml_load : string -> option Deploy.config.
Variable subprocess_call : string -> option Z.
Variable replies : list Hook.resolver_reply.

Definition deploy_challenge : operation :=
  fun args => in_hook (Hook.deploy_challenge args replies).

Definition clean_challenge : operation :=
  fun args => in_hook (Hook.clean_challenge args).

(** The three paths are read for the printed report, then the deployment
    script runs. *)
Definition deploy_cert : operation :=
  fun args p =>
    match args !! 1%nat, args !! 2%nat, args !! 3%nat with
    | Some privkey_file, Some cert_file, Some fullchain_file =>
        in_deploy (Deploy.run_deployment home yaml_load subprocess_call) p
    | _, _, _ => (Uncaught IndexError, p)
    end.

Definition unchanged_cert : operation :=
  fun args p =>
    match args !! 0%nat with
    | Some domain => (Completed, p)
    | None => (Uncaught IndexError, p)
    end.

Definition invalid_challenge : operation :=
  fun args p =>
    match args with
    | [domain; result] => (Completed, p)
    | _ => (ValueError, p)
    end.

Definition startup_hook : operation := fun _ p => (Completed, p).

Definition exit_hook : operation := fun _ p => (Completed, p).

Definition operations : gmap string operation :=
  list_to_map
    [("deploy_challenge", deploy_challenge);
     ("clean_challenge", clean_challenge);
     ("deploy_cert", deploy_cert);
     ("unchanged_cert", unchanged_cert);
     ("invalid_challenge", invalid_challenge);
     ("startup_hook", startup_hook);
     ("exit_hook", exit_hook)].

(** [args[0]] is read for the announcement before the table is consulted;
    the operation gets [args[1:]]. *)
Definition run_hook (args : list string) : process -> exit * process :=
  fun p =>
    match args !! 0%nat with
    | None => (Uncaught IndexError, p)
    | Some name =>
        match operations !! name with
        | None => (Uncaught (KeyError name), p)
        | Some op => op (drop 1 args) p
        end
    end.

End Environment.

(** The names [run_hook] knows. *)
Definition operation_names : list string :=
  ["deploy_challenge"; "clean_challenge"; "deploy_cert"; "unchanged_cert";
   "invalid_challenge"; "startup_hook"; "exit_hook"].

End Main.

(** ** Reading runs *)

Module Reading.

Import Hook.

(** The seconds a trace spends in [time.sleep]. *)
Fixpoint slept (t : list event) : Z :=
  match t with
  | [] => 0
  | Sleep seconds :: rest => seconds + slept rest
  | _ :: rest => slept rest
  end.

(** Every request of a trace goes to the API root with the given key and
    format parameters. *)
Definition authenticated (key format : option string) (t : list event) : Prop :=
  Forall (fun e =>
            match e with
            | Http url params =>
                url = HOST_API_ROOT /\ params !! "key" = key
                /\ params !! "format" = format
            | _ => True
            end) t.

(** The last byte of a string. *)
Fixpoint last_byte (s : string) : option ascii :=
  match s with
  | EmptyString => None
  | String c EmptyString => Some c
  | String _ rest => last_byte rest
  end.

(** A regular file, as [filecmp.cmp] tests it. *)
Definition regular (f : Deploy.file) : Prop :=
  Z.land (Deploy.st_mode f) Deploy.S_IFMT = Deploy.S_IFREG.

(** Every path that holds a file in [s] holds one in [s']. *)
Definition keeps_paths (s s' : Deploy.state) : Prop :=
  forall path, is_Some (Deploy.fs s !! path) -> is_Some (Deploy.fs s' !! path).

(** The state with another file system. *)
Definition with_fs (m : gmap string Deploy.file) (s : Deploy.state)
  : Deploy.state :=
  Deploy.mk_state m (Deploy.euid s) (Deploy.egid s) (Deploy.now s)
    (Deploy.launched s).

(** The file a copy creates at a free path. *)
Definition copied_file (f : Deploy.file) (s : Deploy.state) : Deploy.file :=
  Deploy.mk_file (Deploy.content f) (Deploy.euid s) (Deploy.egid s)
    (Z.lor (Z.land Deploy.S_IFREG Deploy.S_IFMT)
           (Deploy.S_IMODE (Deploy.st_mode f)))
    (Deploy.now s).

(** A computation that launches nothing. *)
Definition quiet {A} (m : M Deploy.state A) : Prop :=
  forall s, Deploy.launched (m s).2 = Deploy.launched s.

(** No path of the map holds a directory. *)
Definition no_directories (s : Deploy.state) : Prop :=
  forall path f, Deploy.fs s !! path = Some f ->
                 Deploy.is_a Deploy.S_IFDIR f = false.

(** Whether a run ended by returning or at a missing file. *)
Definition settled {A} (o : outcome A) : Prop :=
  match o with
  | Returns _ => True
  | Raises (SystemExit _) => True
  | _ => False
  end.

(** A computation that never exits through [sys.exit]. *)
Definition no_exit {A} (m : M Deploy.state A) : Prop :=
  forall s msg s', m s ≠ (Raises (SystemExit msg), s').

End Reading.

(** ** Strings *)

Module StringFacts.

Lemma append_cons (c : ascii) (a b : string) :
  String c a +:+ b = String c (a +:+ b).
Proof. reflexivity. Qed.

Lemma append_nil (b : string) : EmptyString +:+ b = b.
Proof. reflexivity. Qed.

Lemma append_empty_r (a : string) : a +:+ EmptyString = a.
Proof.
  induction a as [|x a IH]; [done |].
  by rewrite append_cons, IH.
Qed.

Lemma append_assoc (a b c : string) : (a +:+ b) +:+ c = a +:+ (b +:+ c).
Proof.
  induction a as [|x a IH]; [done |].
  by rewrite !append_cons, IH.
Qed.

Lemma length_append (a b : string) :
  String.length (a +:+ b) = (String.length a + String.length b)%nat.
Proof.
  induction a as [|x a IH]; [done |].
  rewrite append_cons. simpl. by rewrite IH.
Qed.

Lemma substring_prefix (a b : string) :
  String.substring 0 (String.length a) (a +:+ b) = a.
Proof.
  induction a as [|x a IH]; [by destruct b |].
  rewrite append_cons. simpl. by rewrite IH.
Qed.

End StringFacts.

(** ** The monad *)

Module MonadFacts.

Lemma bind_assoc {S A B C} (m : M S A) (k : A -> M S B) (h : B -> M S C) s :
  bind (bind m k) h s = bind m (fun a => bind (k a) h) s.
Proof. unfold bind. by destruct (m s) as [[a | e |] s']. Qed.

Lemma bind_returns {S A B} (m : M S A) (k : A -> M S B) s a s' :
  m s = (Returns a, s') -> bind m k s = k a s'.
Proof. intros H. unfold bind. by rewrite H. Qed.

Lemma bind_raises {S A B} (m : M S A) (k : A -> M S B) s e s' :
  m s = (Raises e, s') -> bind m k s = (Raises e, s').
Proof. intros H. unfold bind. by rewrite H. Qed.

Lemma bind_pending {S A B} (m : M S A) (k : A -> M S B) s s' :
  m s = (Pending, s') -> bind m k s = (Pending, s').
Proof. intros H. unfold bind. by rewrite H. Qed.

(** What a computation that returns after [m] went through. *)
Lemma bind_returned {S A B} (m : M S A) (k : A -> M S B) s b s' :
  bind m k s = (Returns b, s') ->
  exists a s1, m s = (Returns a, s1) /\ k a s1 = (Returns b, s').
Proof.
  unfold bind. destruct (m s) as [[a | e |] s1]; [by eauto | done | done].
Qed.

(** What follows a computation that returns. *)
Lemma bind_fst {S A B} (m : M S A) (k : A -> M S B) s a :
  (m s).1 = Returns a -> bind m k s = k a (m s).2.
Proof. unfold bind. destruct (m s) as [[a' | e |] s']; simpl; by intros [= ->]. Qed.

End MonadFacts.

(** ** Properties of hook.py *)

Module HookFacts.

Import Hook StringFacts MonadFacts.

Local Open Scope proc_scope.

(** *** The parameter dictionary *)

Lemma written_lookup cmd r v p :
  written cmd r v p !! "cmd" = Some cmd /\
  written cmd r v p !! "record" = Some r /\
  written cmd r v p !! "type" = Some "TXT" /\
  written cmd r v p !! "value" = Some v.
Proof. unfold written. repeat split; by simplify_map_eq. Qed.

Lemma requests_get_run s :
  requests_get s =
    (Returns (dreamhost_api (HOST_API_PARAMS s) (zone s)).1,
     mk_state (HOST_API_PARAMS s) (DNS_COUNTER s)
       (dreamhost_api (HOST_API_PARAMS s) (zone s)).2
       (trace s ++ [Http HOST_API_ROOT (HOST_API_PARAMS s)])).
Proof. unfold requests_get. by destruct (dreamhost_api _ _). Qed.

Lemma remove_record_run r v s :
  let p := written "dns-remove_record" r v (HOST_API_PARAMS s) in
  remove_record r v s =
    (Returns (dreamhost_api p (zone s)).1,
     mk_state p (DNS_COUNTER s) (dreamhost_api p (zone s)).2
       (trace s ++ [Http HOST_API_ROOT p])).
Proof.
  unfold remove_record, bind, set_param, modify; simpl.
  by rewrite requests_get_run.
Qed.

Lemma add_record_run r v s :
  let p := written "dns-add_record" r v (HOST_API_PARAMS s) in
  add_record r v s =
    (Returns (dreamhost_api p (zone s)).1,
     mk_state p (DNS_COUNTER s) (dreamhost_api p (zone s)).2
       (trace s ++ [Http HOST_API_ROOT p])).
Proof.
  unfold add_record, bind, set_param, modify; simpl.
  by rewrite requests_get_run.
Qed.

Lemma list_records_reply p z :
  p !! "cmd" = Some "dns-list_records" ->
  dreamhost_api p z = (mk_response "success" (Records z), z).
Proof.
  intros Hcmd. unfold dreamhost_api.
  by rewrite bool_decide_eq_true_2.
Qed.

Lemma record_exists_run r s :
  let p := <["cmd" := "dns-list_records"]> (HOST_API_PARAMS s) in
  record_exists r s =
    (Returns (find_record r (zone s)),
     mk_state p (DNS_COUNTER s) (zone s) (trace s ++ [Http HOST_API_ROOT p])).
Proof.
  unfold record_exists, bind, set_param, modify; simpl.
  rewrite requests_get_run; simpl.
  rewrite list_records_reply by apply lookup_insert_eq.
  reflexivity.
Qed.

Lemma since_app s s' evs : trace s' = trace s ++ evs -> since s s' = evs.
Proof. unfold since. intros ->. by rewrite drop_app_length. Qed.

Lemma api_call_of_list p :
  p !! "cmd" = Some "dns-list_records" -> api_call_of p = ListRecords.
Proof. intros H. unfold api_call_of. by rewrite bool_decide_eq_true_2. Qed.

Lemma api_call_of_written_add r v p :
  api_call_of (written "dns-add_record" r v p)
  = AddRecord (Some r) (Some "TXT") (Some v).
Proof.
  destruct (written_lookup "dns-add_record" r v p) as (Hc & Hr & Ht & Hv).
  unfold api_call_of. rewrite Hc, Hr, Ht, Hv.
  rewrite bool_decide_eq_false_2 by discriminate.
  by rewrite bool_decide_eq_true_2.
Qed.

Lemma api_call_of_written_remove r v p :
  api_call_of (written "dns-remove_record" r v p)
  = RemoveRecord (Some r) (Some "TXT") (Some v).
Proof.
  destruct (written_lookup "dns-remove_record" r v p) as (Hc & Hr & Ht & Hv).
  unfold api_call_of. rewrite Hc, Hr, Ht, Hv.
  do 2 rewrite bool_decide_eq_false_2 by discriminate.
  by rewrite bool_decide_eq_true_2.
Qed.

Lemma find_record_None name items :
  find_record name items = None <-> forall i, i ∈ items -> record i ≠ name.
Proof.
  induction items as [|a items IH]; simpl.
  - split; [intros _ i Hi; inversion Hi | done].
  - case_bool_decide as Ha.
    + split; [done | intros H; exfalso; apply (H a); [left | done]].
    + rewrite IH. split.
      * intros H i Hi. apply elem_of_cons in Hi as [-> | Hi]; auto.
      * intros H i Hi. apply H. by right.
Qed.

Lemma find_record_Some name items v :
  find_record name items = Some v <->
  exists before i after,
    items = before ++ i :: after
    /\ (forall j, j ∈ before -> record j ≠ name)
    /\ record i = name /\ value i = v.
Proof.
  induction items as [|a items IH]; simpl.
  - split; [done |]. intros (before & i & after & H & _). by destruct before.
  - case_bool_decide as Ha.
    + split.
      * intros [= <-]. exists [], a, items. repeat split; try done.
        intros j Hj. by apply elem_of_nil in Hj.
      * intros (before & i & after & Heq & Hbefore & Hi & Hv).
        destruct before as [|b before]; simpl in Heq.
        -- injection Heq as -> ->. by rewrite Hv.
        -- injection Heq as -> ->. exfalso. apply (Hbefore b); [left | done].
    + rewrite IH. split.
      * intros (before & i & after & -> & Hbefore & Hi & Hv).
        exists (a :: before), i, after. repeat split; try done.
        intros j Hj. apply elem_of_cons in Hj as [-> | Hj]; auto.
      * intros (before & i & after & Heq & Hbefore & Hi & Hv).
        destruct before as [|b before]; simpl in Heq.
        -- injection Heq as -> ->. done.
        -- injection Heq as -> ->. exists before, i, after.
           repeat split; try done. intros j Hj. apply Hbefore. by right.
Qed.

(** C9: the provider parameters are one dictionary shared by [remove_record],
    [add_record] and [record_exists]. After an [add_record] or a
    [remove_record] call the [record], [type] and [value] entries it wrote
    are still in the dictionary, and the request of a following
    [record_exists] call carries them together with its own [cmd]. *)
Theorem stale_parameters_are_sent (r v r' : string) (s : state) :
  sends_stale r v r' (add_record r v s).2
  /\ sends_stale r v r' (remove_record r v s).2.
Proof.
  assert (H : forall cmd s1,
             HOST_API_PARAMS s1 = written cmd r v (HOST_API_PARAMS s) ->
             sends_stale r v r' s1).
  { intros cmd s1 Hp.
    destruct (written_lookup cmd r v (HOST_API_PARAMS s)) as (_ & Hr & Ht & Hv).
    rewrite <- Hp in Hr, Ht, Hv.
    split; [done |].
    exists (<["cmd" := "dns-list_records"]> (HOST_API_PARAMS s1)).
    rewrite record_exists_run; simpl.
    split; [by apply since_app |].
    by simplify_map_eq. }
  split.
  - apply (H "dns-add_record"). by rewrite add_record_run.
  - apply (H "dns-remove_record"). by rewrite remove_record_run.
Qed.

(** *** Propagation polling *)

Lemma has_dns_propagated_run record token reply s :
  has_dns_propagated record token reply s =
    (Returns (confirms token reply && (DNS_COUNTER s + 1 =? 3)),
     mk_state (HOST_API_PARAMS s)
       (if confirms token reply then DNS_COUNTER s + 1 else DNS_COUNTER s)
       (zone s) (trace s ++ [Query record "TXT"])).
Proof.
  unfold has_dns_propagated, bind, emit, modify; simpl.
  destruct reply as [answer | e]; simpl; [| done].
  case_bool_decide; simpl; [| done].
  unfold bind, bump_counter, modify, gets; simpl.
  by destruct (DNS_COUNTER s + 1 =? 3).
Qed.

(** One turn of the loop on a poll that does not end it. *)
Lemma wait_for_propagation_step record token reply later s :
  confirms token reply && (DNS_COUNTER s + 1 =? 3) = false ->
  wait_for_propagation record token (reply :: later) s =
    wait_for_propagation record token later
      (mk_state (HOST_API_PARAMS s)
         (if confirms token reply then DNS_COUNTER s + 1 else DNS_COUNTER s)
         (zone s) (trace s ++ [Query record "TXT"; Sleep 30])).
Proof.
  intros Hno. simpl. unfold bind at 1.
  rewrite has_dns_propagated_run, Hno.
  unfold bind, sleep, emit, modify; simpl.
  by rewrite <- app_assoc.
Qed.

Lemma wait_for_propagation_pending record token replies : forall s,
  DNS_COUNTER s + Z.of_nat (hits token replies) < 3 \/ 3 <= DNS_COUNTER s ->
  wait_for_propagation record token replies s =
    (Pending,
     mk_state (HOST_API_PARAMS s)
       (DNS_COUNTER s + Z.of_nat (hits token replies))
       (zone s)
       (trace s ++ unsuccessful_polls record (length replies))).
Proof.
  induction replies as [|reply later IH]; intros s Hc.
  - simpl. rewrite Z.add_0_r, app_nil_r. by destruct s.
  - assert (Hno : confirms token reply && (DNS_COUNTER s + 1 =? 3) = false).
    { simpl in Hc. destruct (confirms token reply); [| done]. simpl.
      apply Z.eqb_neq. lia. }
    rewrite wait_for_propagation_step by done.
    rewrite IH; simpl.
    + rewrite <- app_assoc. simpl.
      f_equal. f_equal. destruct (confirms token reply); lia.
    + simpl in Hc. destruct (confirms token reply); lia.
Qed.

Lemma wait_for_propagation_returns record token pre hit post : forall s,
  DNS_COUNTER s + Z.of_nat (hits token pre) = 2 ->
  0 <= DNS_COUNTER s ->
  confirms token hit = true ->
  wait_for_propagation record token (pre ++ hit :: post) s =
    (Returns tt,
     mk_state (HOST_API_PARAMS s) 3 (zone s)
       (trace s ++ unsuccessful_polls record (length pre)
                ++ [Query record "TXT"])).
Proof.
  induction pre as [|reply later IH]; intros s Hc Hpos Hhit.
  - simpl in *. unfold bind. rewrite has_dns_propagated_run, Hhit.
    replace (DNS_COUNTER s + 1) with 3 by lia. done.
  - assert (Hno : confirms token reply && (DNS_COUNTER s + 1 =? 3) = false).
    { simpl in Hc. destruct (confirms token reply); [| done]. simpl.
      apply Z.eqb_neq. lia. }
    rewrite <- app_comm_cons, wait_for_propagation_step by done.
    rewrite IH; simpl; [| | | done].
    + by rewrite <- app_assoc.
    + simpl in Hc. destruct (confirms token reply); lia.
    + destruct (confirms token reply); lia.
Qed.

Lemma hits_split token n : forall replies,
  (n < hits token replies)%nat ->
  exists pre hit post,
    replies = pre ++ hit :: post /\ hits token pre = n
    /\ confirms token hit = true.
Proof.
  induction n as [|n IHn]; induction replies as [|reply later IH];
    simpl; intros Hn; try lia.
  - destruct (confirms token reply) eqn:Hr.
    + by exists [], reply, later.
    + destruct (IH Hn) as (pre & hit & post & -> & Hpre & Hhit).
      exists (reply :: pre), hit, post. simpl. by rewrite Hr.
  - destruct (confirms token reply) eqn:Hr.
    + destruct (IHn later) as (pre & hit & post & -> & Hpre & Hhit); [lia |].
      exists (reply :: pre), hit, post. simpl. rewrite Hr, Hpre. done.
    + destruct (IH Hn) as (pre & hit & post & -> & Hpre & Hhit).
      exists (reply :: pre), hit, post. simpl. by rewrite Hr.
Qed.

Lemma polls_unsuccessful record n later :
  polls (unsuccessful_polls record n ++ later) = (n + polls later)%nat.
Proof. induction n as [|n IH]; simpl; [done | by rewrite IH]. Qed.

(** C4: a resolver exception during a poll is caught in
    [has_dns_propagated], which returns false and leaves the counter as it
    was; the process goes on, and the loop sleeps and polls again. *)
Theorem resolver_failure_holds_counter
    (record token : string) (e : DNSException)
    (later : list resolver_reply) (s : state) :
  let s' := mk_state (HOST_API_PARAMS s) (DNS_COUNTER s) (zone s)
                     (trace s ++ [Query record "TXT"]) in
  has_dns_propagated record token (QueryFailed e) s = (Returns false, s')
  /\ wait_for_propagation record token (QueryFailed e :: later) s =
       wait_for_propagation record token later (sleep 30 s').2.
Proof.
  split; [done |].
  rewrite wait_for_propagation_step by done.
  unfold sleep, emit, modify; simpl. by rewrite <- app_assoc.
Qed.

(** C10: when the counter is already 3 or more as polling begins, no poll
    makes [has_dns_propagated] return true, whatever the resolver replies,
    and the loop is still polling after any number of replies. *)
Theorem counter_past_three_never_succeeds
    (record token : string) (s : state) :
  3 <= DNS_COUNTER s ->
  (forall reply, exists s',
      has_dns_propagated record token reply s = (Returns false, s')
      /\ 3 <= DNS_COUNTER s')
  /\ (forall replies, exists s',
        wait_for_propagation record token replies s = (Pending, s')
        /\ 3 <= DNS_COUNTER s'
        /\ polls (since s s') = length replies).
Proof.
  intros Hc. split.
  - intros reply.
    assert (Hno : confirms token reply && (DNS_COUNTER s + 1 =? 3) = false).
    { destruct (confirms token reply); [| done]. simpl.
      apply Z.eqb_neq. lia. }
    eexists. rewrite has_dns_propagated_run, Hno. split; [done |].
    simpl. destruct (confirms token reply); lia.
  - intros replies. eexists.
    rewrite wait_for_propagation_pending by (by right).
    split; [done |]. simpl. split; [lia |].
    erewrite since_app by done.
    rewrite <- (app_nil_r (unsuccessful_polls _ _)), polls_unsuccessful.
    simpl. lia.
Qed.

Lemma counter_past_three_witness :
  let s := mk_state ∅ 3 [] [] in
  3 <= DNS_COUNTER s
  /\ exists s',
       wait_for_propagation "_acme-challenge.example.com" "tokenABC"
         [Answer [["tokenABC"]]; Answer [["tokenABC"]]] s = (Pending, s').
Proof.
  intros s.
  assert (Hc : 3 <= DNS_COUNTER s) by (simpl; lia).
  split; [exact Hc |].
  destruct (counter_past_three_never_succeeds
              "_acme-challenge.example.com" "tokenABC" s Hc) as [_ H].
  destruct (H [Answer [["tokenABC"]]; Answer [["tokenABC"]]]) as (s' & Hs' & _).
  by exists s'.
Defined.

(** C2, as the code has it: in a run that starts with the counter at 0 the
    loop ends with success at the poll that brings the number of confirming
    polls of the run to 3, and not before; a poll that does not confirm
    (token absent, or resolver failure) leaves the count where it is, so the
    three confirming polls need not be consecutive. *)
Theorem propagation_needs_three_hits
    (record token : string) (replies : list resolver_reply) (s : state) :
  DNS_COUNTER s = 0 ->
  ((hits token replies < 3)%nat ->
     exists s',
       wait_for_propagation record token replies s = (Pending, s')
       /\ DNS_COUNTER s' = Z.of_nat (hits token replies))
  /\ (forall pre hit post,
        replies = pre ++ hit :: post ->
        hits token pre = 2%nat ->
        confirms token hit = true ->
        exists s',
          wait_for_propagation record token replies s = (Returns tt, s')
          /\ DNS_COUNTER s' = 3
          /\ since s s' =
               unsuccessful_polls record (length pre) ++ [Query record "TXT"])
  /\ ((3 <= hits token replies)%nat ->
        exists pre hit post,
          replies = pre ++ hit :: post /\ hits token pre = 2%nat
          /\ confirms token hit = true).
Proof.
  intros H0. repeat split.
  - intros Hlt. eexists.
    rewrite wait_for_propagation_pending by (left; lia).
    split; [done |]. simpl. lia.
  - intros pre hit post -> Hpre Hhit. eexists.
    rewrite wait_for_propagation_returns by (done || lia).
    split; [done |]. split; [done |].
    by apply since_app.
  - intros Hge. by apply hits_split.
Qed.

Lemma consecutive_hits_not_needed :
  ~ (forall record token replies s s',
       DNS_COUNTER s = 0 ->
       wait_for_propagation record token replies s = (Returns tt, s') ->
       last_three_confirm token replies (polls (since s s'))).
Proof.
  intros H.
  pose (replies := [Answer [["tokenABC"]]; Answer [["stale"]];
                    Answer [["tokenABC"]]; Answer [["tokenABC"]]]).
  pose (s := initial_state "key" []).
  specialize (H "_acme-challenge.example.com" "tokenABC" replies s
                (wait_for_propagation "_acme-challenge.example.com" "tokenABC"
                   replies s).2 eq_refl).
  destruct H as [_ H]; [by vm_compute |].
  destruct (H 1%nat) as (reply & Hreply & Hconfirms); [vm_compute; lia |].
  vm_compute in Hreply. injection Hreply as <-.
  vm_compute in Hconfirms. discriminate.
Qed.

Lemma propagation_needs_three_hits_witness :
  let replies := [Answer [["tokenABC"]]; QueryFailed Timeout;
                  Answer [["tokenABC"]]; Answer [["tokenABC"]; ["other"]]] in
  let s := initial_state "key" [] in
  DNS_COUNTER s = 0
  /\ exists s',
       wait_for_propagation "_acme-challenge.example.com" "tokenABC" replies s
         = (Returns tt, s')
       /\ DNS_COUNTER s' = 3
       /\ polls (since s s') = 4%nat.
Proof.
  intros replies s. split; [reflexivity |].
  destruct (propagation_needs_three_hits
              "_acme-challenge.example.com" "tokenABC" replies s eq_refl)
    as (_ & Hret & _).
  destruct (Hret [Answer [["tokenABC"]]; QueryFailed Timeout;
                  Answer [["tokenABC"]]]
              (Answer [["tokenABC"]; ["other"]]) [])
    as (s' & Hrun & Hc & Hsince); [reflexivity | by vm_compute | by vm_compute |].
  exists s'. repeat split; [done | done |].
  rewrite Hsince. reflexivity.
Defined.

(** *** Provider calls *)

(** The loop talks to the resolver only: it leaves the provider and the
    parameter dictionary alone. *)
Lemma wait_for_propagation_quiet record token replies : forall s,
  exists evs,
    trace (wait_for_propagation record token replies s).2 = trace s ++ evs
    /\ api_calls evs = []
    /\ zone (wait_for_propagation record token replies s).2 = zone s.
Proof.
  induction replies as [|reply later IH]; intros s.
  - exists []. simpl. by rewrite app_nil_r.
  - destruct (confirms token reply && (DNS_COUNTER s + 1 =? 3)) eqn:Hend.
    + exists [Query record "TXT"]. simpl. unfold bind at 1 3.
      by rewrite has_dns_propagated_run, Hend.
    + rewrite wait_for_propagation_step by done.
      match goal with |- context [wait_for_propagation _ _ _ ?s1] =>
        destruct (IH s1) as (evs & Htr & Hcalls & Hzone) end.
      exists ([Query record "TXT"; Sleep 30] ++ evs).
      rewrite Htr, Hzone. simpl. by rewrite <- app_assoc.
Qed.

Lemma deploy_challenge_run domain x token rest replies s :
  let record := DNS_PREFIX +:+ "." +:+ domain in
  let s1 := (record_exists record s).2 in
  let s2 := match find_record record (zone s) with
            | Some stale => (sleep 10 (remove_record record stale s1).2).2
            | None => s1
            end in
  let s3 := (sleep 10 (add_record record token s2).2).2 in
  deploy_challenge (domain :: x :: token :: rest) replies s =
    wait_for_propagation record token replies s3.
Proof.
  intros record s1 s2 s3. subst s1 s2 s3.
  unfold deploy_challenge.
  do 2 erewrite bind_returns by reflexivity.
  cbv zeta. fold record. clearbody record.
  erewrite bind_fst by (by rewrite record_exists_run).
  destruct (find_record record (zone s)) as [stale|].
  - rewrite bind_assoc.
    erewrite bind_fst by (by rewrite remove_record_run).
    erewrite bind_fst by reflexivity.
    erewrite bind_fst by (by rewrite add_record_run).
    by erewrite bind_fst by reflexivity.
  - erewrite bind_returns by reflexivity.
    erewrite bind_fst by (by rewrite add_record_run).
    by erewrite bind_fst by reflexivity.
Qed.

(** The provider calls of a run, by what the lookup in the list of the
    provider gives. *)
Lemma provider_calls_by_lookup
    (domain x token : string) (rest : list string)
    (replies : list resolver_reply) (s : state) :
  let record := DNS_PREFIX +:+ "." +:+ domain in
  api_calls
    (since s (deploy_challenge (domain :: x :: token :: rest) replies s).2) =
  match find_record record (zone s) with
  | None =>
      [ListRecords; AddRecord (Some record) (Some "TXT") (Some token)]
  | Some stale =>
      [ListRecords;
       RemoveRecord (Some record) (Some "TXT") (Some stale);
       AddRecord (Some record) (Some "TXT") (Some token)]
  end.
Proof.
  intros record. rewrite deploy_challenge_run. fold record.
  match goal with |- context [wait_for_propagation _ _ _ ?s3] =>
    destruct (wait_for_propagation_quiet record token replies s3)
      as (evs & Htr & Hcalls & _) end.
  revert Htr.
  rewrite record_exists_run; simpl.
  destruct (find_record record (zone s)) as [stale|].
  - rewrite remove_record_run; simpl. rewrite add_record_run; simpl.
    intros Htr. erewrite since_app.
    2: { rewrite Htr. rewrite <- !app_assoc. reflexivity. }
    simpl. rewrite Hcalls.
    rewrite api_call_of_list by apply lookup_insert_eq.
    by rewrite api_call_of_written_remove, api_call_of_written_add.
  - rewrite add_record_run; simpl.
    intros Htr. erewrite since_app.
    2: { rewrite Htr. rewrite <- !app_assoc. reflexivity. }
    simpl. rewrite Hcalls.
    rewrite api_call_of_list by apply lookup_insert_eq.
    by rewrite api_call_of_written_add.
Qed.

(** C5: the provider calls of a [deploy_challenge] run. When the provider
    lists no record of the challenge name: the existence check, then one add
    call with the token, and no remove call. When it lists records of that
    name, whatever it lists before the first of them: the existence check,
    one remove call with the value of that first record, then the add call.
    The polling loop adds no provider call. *)
Theorem deploy_challenge_provider_calls
    (domain x token : string) (rest : list string)
    (replies : list resolver_reply) (s : state) :
  let name := DNS_PREFIX +:+ "." +:+ domain in
  let calls :=
    api_calls
      (since s (deploy_challenge (domain :: x :: token :: rest) replies s).2) in
  ((forall i, i ∈ zone s -> record i ≠ name) ->
   calls = [ListRecords; AddRecord (Some name) (Some "TXT") (Some token)])
  /\ (forall before i after,
        zone s = before ++ i :: after ->
        (forall j, j ∈ before -> record j ≠ name) ->
        record i = name ->
        calls =
          [ListRecords;
           RemoveRecord (Some name) (Some "TXT") (Some (value i));
           AddRecord (Some name) (Some "TXT") (Some token)]).
Proof.
  intros name calls. subst calls.
  pose proof (provider_calls_by_lookup domain x token rest replies s) as Hcalls.
  cbv zeta in Hcalls. fold name in Hcalls. rewrite Hcalls. clear Hcalls.
  clearbody name. split.
  - intros Hnone. apply find_record_None in Hnone. by rewrite Hnone.
  - intros before i after Hzone Hbefore Hi.
    assert (Hfound : find_record name (zone s) = Some (value i)).
    { apply find_record_Some. by exists before, i, after. }
    by rewrite Hfound.
Qed.

Lemma deploy_challenge_provider_calls_witness :
  let fresh := initial_state "key" [mk_item "www.example.com" "A" "192.0.2.1"] in
  let stale :=
    initial_state "key"
      [mk_item "www.example.com" "A" "192.0.2.1";
       mk_item "_acme-challenge.example.com" "TXT" "old";
       mk_item "_acme-challenge.example.com" "TXT" "older"] in
  let run s :=
    api_calls
      (since s (deploy_challenge ["example.com"; "unused"; "tokenABC"] [] s).2) in
  run fresh =
    [ListRecords;
     AddRecord (Some "_acme-challenge.example.com") (Some "TXT")
       (Some "tokenABC")]
  /\ run stale =
       [ListRecords;
        RemoveRecord (Some "_acme-challenge.example.com") (Some "TXT")
          (Some "old");
        AddRecord (Some "_acme-challenge.example.com") (Some "TXT")
          (Some "tokenABC")].
Proof.
  intros fresh stale run. split.
  - pose proof (deploy_challenge_provider_calls "example.com" "unused"
                  "tokenABC" [] [] fresh) as H.
    cbv zeta in H. destruct H as [H _]. apply H.
    intros i Hi. apply list_elem_of_singleton in Hi as ->. discriminate.
  - pose proof (deploy_challenge_provider_calls "example.com" "unused"
                  "tokenABC" [] [] stale) as H.
    cbv zeta in H. destruct H as [_ H].
    apply (H [mk_item "www.example.com" "A" "192.0.2.1"]
             (mk_item "_acme-challenge.example.com" "TXT" "old")
             [mk_item "_acme-challenge.example.com" "TXT" "older"]).
    + reflexivity.
    + intros j Hj. apply list_elem_of_singleton in Hj as ->. discriminate.
    + reflexivity.
Defined.

(** C8: when the provider holds no record of the challenge name,
    [clean_challenge] sends the existence check and nothing else: one
    request, no sleep, no remove or add call, and the records at the provider
    are what they were. *)
Theorem clean_challenge_without_record
    (domain : string) (rest : list string) (s : state) :
  (forall i, i ∈ zone s -> record i ≠ DNS_PREFIX +:+ "." +:+ domain) ->
  exists s' p,
    clean_challenge (domain :: rest) s = (Returns tt, s')
    /\ since s s' = [Http HOST_API_ROOT p]
    /\ api_call_of p = ListRecords
    /\ zone s' = zone s.
Proof.
  intros Hnone. apply find_record_None in Hnone.
  unfold clean_challenge, arg; simpl.
  unfold bind; simpl.
  rewrite record_exists_run; simpl. rewrite Hnone.
  eexists _, _. split; [reflexivity |]. simpl.
  split; [by apply since_app |].
  split; [| done].
  apply api_call_of_list, lookup_insert_eq.
Qed.

Lemma clean_challenge_without_record_witness :
  let s := initial_state "key" [mk_item "www.example.com" "A" "192.0.2.1"] in
  (forall i, i ∈ zone s -> record i ≠ DNS_PREFIX +:+ "." +:+ "example.com")
  /\ exists s',
       clean_challenge ["example.com"] s = (Returns tt, s')
       /\ api_calls (since s s') = [ListRecords]
       /\ zone s' = zone s.
Proof.
  intros s.
  assert (Hnone : forall i, i ∈ zone s ->
                    record i ≠ DNS_PREFIX +:+ "." +:+ "example.com").
  { apply find_record_None. reflexivity. }
  split; [exact Hnone |].
  destruct (clean_challenge_without_record "example.com" [] s Hnone)
    as (s' & p & Hrun & Hsince & Hcall & Hzone).
  exists s'. split; [done |]. split; [| done].
  rewrite Hsince. simpl. by rewrite Hcall.
Defined.

(** *** Text of a TXT record *)

Lemma slice_between (c d : ascii) (body : string) :
  slice_1_m1 (String c (body +:+ String d EmptyString)) = body.
Proof.
  unfold slice_1_m1. simpl String.length. rewrite length_append. simpl.
  replace (String.length body + 1 - 1)%nat with (String.length body) by lia.
  apply substring_prefix.
Qed.

Lemma to_text_from_space rest :
  String dquote EmptyString +:+ to_text_from " " rest
  = later_segments rest +:+ String dquote EmptyString.
Proof.
  induction rest as [|seg rest IH]; [done |].
  cbn [to_text_from later_segments].
  rewrite IH.
  repeat (rewrite append_cons || rewrite append_nil || rewrite append_assoc).
  reflexivity.
Qed.

Lemma to_text_cons seg rest :
  to_text (seg :: rest) =
    String dquote
      ((_escapify seg +:+ later_segments rest) +:+ String dquote EmptyString).
Proof.
  unfold to_text. cbn [to_text_from].
  rewrite append_nil, append_cons, !append_assoc.
  by rewrite to_text_from_space.
Qed.

Lemma plain_byte_escapify c :
  plain_byte c = true -> escapify_byte c = String c EmptyString.
Proof.
  unfold plain_byte, escapify_byte. intros H.
  apply andb_true_iff in H as [H Hlt]. apply andb_true_iff in H as [Hq Hge].
  apply negb_true_iff in Hq. by rewrite Hq, Hge, Hlt.
Qed.

Lemma plain_escapify s : plain s = true -> _escapify s = s.
Proof.
  induction s as [|c s IH]; simpl; [done |].
  intros H. apply andb_true_iff in H as [Hc Hs].
  rewrite plain_byte_escapify, IH by done. done.
Qed.

Lemma escapify_byte_length c : (1 <= String.length (escapify_byte c))%nat.
Proof.
  unfold escapify_byte. case_bool_decide; simpl; [lia |].
  destruct (_ && _); simpl; lia.
Qed.

Lemma escapify_length s : (String.length s <= String.length (_escapify s))%nat.
Proof.
  induction s as [|c s IH]; simpl; [done |].
  rewrite length_append. pose proof (escapify_byte_length c). lia.
Qed.

Lemma later_segments_length rest :
  (String.length (joined rest) + 3 * length rest
   <= String.length (later_segments rest))%nat.
Proof.
  induction rest as [|seg rest IH]; simpl; [done |].
  rewrite !length_append. pose proof (escapify_length seg). lia.
Qed.

Lemma confirms_single token rd :
  confirms token (Answer [rd]) = bool_decide (token = slice_1_m1 (to_text rd)).
Proof.
  simpl. apply bool_decide_ext. rewrite elem_of_cons, elem_of_nil. tauto.
Qed.

Lemma counter_after_poll record token reply s :
  DNS_COUNTER (has_dns_propagated record token reply s).2 =
    if confirms token reply then DNS_COUNTER s + 1 else DNS_COUNTER s.
Proof. by rewrite has_dns_propagated_run. Qed.

(** C7, as the code has it: the text of a returned TXT record (every
    segment escaped and between double quotes, the segments one space apart)
    loses its first and its last character and is then compared with the
    token. A record of one segment of printable characters without quote or
    backslash is recognised as that segment. A record of several segments
    keeps the quote, space and quote between them and is not recognised as
    the segments put together. *)
Theorem txt_record_comparison
    (record seg : string) (rest : list string) (s : state) :
  slice_1_m1 (to_text (seg :: rest)) = _escapify seg +:+ later_segments rest
  /\ (plain seg = true ->
      DNS_COUNTER (has_dns_propagated record seg (Answer [[seg]]) s).2
        = DNS_COUNTER s + 1)
  /\ (rest ≠ [] ->
      DNS_COUNTER
        (has_dns_propagated record (joined (seg :: rest))
           (Answer [seg :: rest]) s).2
        = DNS_COUNTER s).
Proof.
  assert (Hslice : forall r,
            slice_1_m1 (to_text (seg :: r)) = _escapify seg +:+ later_segments r).
  { intros r. rewrite to_text_cons. apply slice_between. }
  split; [apply Hslice |]. split.
  - intros Hplain. rewrite counter_after_poll, confirms_single, Hslice.
    rewrite plain_escapify by done. cbn [later_segments].
    rewrite append_empty_r. by rewrite bool_decide_eq_true_2.
  - intros Hrest. rewrite counter_after_poll, confirms_single, Hslice.
    rewrite bool_decide_eq_false_2; [done |].
    intros Heq. apply (f_equal String.length) in Heq.
    cbn [joined] in Heq. rewrite !length_append in Heq.
    pose proof (escapify_length seg). pose proof (later_segments_length rest).
    destruct rest; [done |]. cbn [length] in *. lia.
Qed.

Lemma txt_record_comparison_witness :
  let s := initial_state "key" [] in
  plain "tokenABC" = true
  /\ ["ABC"] ≠ []
  /\ DNS_COUNTER
       (has_dns_propagated "_acme-challenge.example.com" "tokenABC"
          (Answer [["tokenABC"]]) s).2 = 1
  /\ DNS_COUNTER
       (has_dns_propagated "_acme-challenge.example.com" "tokenABC"
          (Answer [["token"; "ABC"]]) s).2 = 0.
Proof.
  intros s.
  destruct (txt_record_comparison "_acme-challenge.example.com"
              "tokenABC" [] s) as (_ & Hone & _).
  destruct (txt_record_comparison "_acme-challenge.example.com"
              "token" ["ABC"] s) as (_ & _ & Hmany).
  split; [reflexivity |]. split; [discriminate |].
  split; [exact (Hone eq_refl) | apply Hmany; discriminate].
Defined.

Lemma split_token_not_recognised :
  ~ (forall record token segments s,
       joined segments = token ->
       DNS_COUNTER
         (has_dns_propagated record token (Answer [segments]) s).2
         = DNS_COUNTER s + 1).
Proof.
  intros H.
  specialize (H "_acme-challenge.example.com" "tokenABC" ["token"; "ABC"]
                (initial_state "key" []) eq_refl).
  vm_compute in H. discriminate.
Qed.

End HookFacts.

(** ** Properties of deploy.py *)

Module DeployFacts.

Import Deploy StringFacts MonadFacts Reading.

Local Open Scope proc_scope.

(** *** File operations *)

Lemma os_stat_run path f s :
  fs s !! path = Some f -> os_stat path s = (Returns f, s).
Proof. intros H. unfold os_stat. by rewrite H. Qed.

Lemma os_stat_returned path f s s' :
  os_stat path s = (Returns f, s') -> fs s !! path = Some f /\ s' = s.
Proof. unfold os_stat. destruct (fs s !! path); by intros [= <- <-]. Qed.

Lemma os_path_exists_run path s :
  os_path_exists path s = (Returns (bool_decide (is_Some (fs s !! path))), s).
Proof. reflexivity. Qed.

Lemma bak_differs (path : string) : path ≠ path +:+ ".bak".
Proof.
  intros H. apply (f_equal String.length) in H.
  rewrite length_append in H. simpl in H. lia.
Qed.

(** A backup path is not inside the file it backs up. *)
Lemma under_bak (path : string) : under path (path +:+ ".bak") = false.
Proof.
  unfold under. induction path as [|c path IH]; [done |].
  rewrite !append_cons. cbn [String.prefix].
  by destruct (ascii_dec c c).
Qed.


(** [os.chmod] leaves the type of the file as it is. *)
Lemma S_IFMT_chmod (kept mode : Z) :
  Z.land (Z.lor (Z.land kept S_IFMT) (S_IMODE mode)) S_IFMT = Z.land kept S_IFMT.
Proof.
  unfold S_IMODE, S_IFMT.
  rewrite Z.land_lor_distr_l, <- !Z.land_assoc.
  change (Z.land 0xFFF 0xF000) with 0. change (Z.land 0xF000 0xF000) with 0xF000.
  by rewrite Z.land_0_r, Z.lor_0_r.
Qed.

Lemma regular_is_a (type : Z) (f : file) :
  regular f -> type ≠ S_IFREG -> is_a type f = false.
Proof.
  unfold regular, is_a. intros -> Htype.
  by rewrite bool_decide_eq_false_2.
Qed.

Lemma os_rename_run src dst f s :
  fs s !! src = Some f -> src ≠ dst ->
  is_a S_IFDIR f = false ->
  (forall g, fs s !! dst = Some g -> is_a S_IFDIR g = false) ->
  os_rename src dst s
  = (Returns tt, with_fs (<[dst := f]> (delete src (fs s))) s).
Proof.
  intros Hsrc Hne Hf Hdst. unfold os_rename.
  erewrite bind_returns by (by apply os_stat_run).
  erewrite bind_returns by reflexivity. unfold id.
  rewrite bool_decide_eq_false_2 by done. rewrite Hf.
  destruct (fs s !! dst) as [g|] eqn:Hg; [| done].
  by rewrite (Hdst g).
Qed.

Lemma os_chmod_run path f mode s :
  fs s !! path = Some f ->
  euid s = 0 \/ st_uid f = euid s ->
  os_chmod path mode s =
    (Returns tt,
     with_fs
       (<[path := mk_file (content f) (st_uid f) (st_gid f)
                    (Z.lor (Z.land (st_mode f) S_IFMT) (S_IMODE mode))
                    (st_mtime f)]> (fs s)) s).
Proof.
  intros H Hmay. unfold os_chmod.
  erewrite bind_returns by (by apply os_stat_run).
  erewrite bind_returns by reflexivity. unfold id.
  by rewrite bool_decide_eq_true_2.
Qed.

Lemma os_chmod_returned path mode s s' :
  os_chmod path mode s = (Returns tt, s') ->
  exists f,
    fs s !! path = Some f
    /\ s' = with_fs
              (<[path := mk_file (content f) (st_uid f) (st_gid f)
                           (Z.lor (Z.land (st_mode f) S_IFMT) (S_IMODE mode))
                           (st_mtime f)]> (fs s)) s.
Proof.
  unfold os_chmod. intros H.
  apply bind_returned in H as (f & s1 & Hstat & H).
  apply os_stat_returned in Hstat as [Hf ->].
  erewrite bind_returns in H by reflexivity. unfold id in H.
  destruct (bool_decide _); [| done].
  injection H as <-. by exists f.
Qed.

Lemma os_chown_run path f uid gid s :
  fs s !! path = Some f ->
  euid s = 0 ->
  os_chown path uid gid s =
    (Returns tt,
     with_fs (<[path := mk_file (content f) uid gid (st_mode f) (st_mtime f)]>
                (fs s)) s).
Proof.
  intros H Hroot. unfold os_chown.
  erewrite bind_returns by (by apply os_stat_run).
  erewrite bind_returns by reflexivity. unfold id.
  by rewrite bool_decide_eq_true_2 by (by left).
Qed.

Lemma os_chown_returned path uid gid s s' :
  os_chown path uid gid s = (Returns tt, s') ->
  exists f,
    fs s !! path = Some f
    /\ s' = with_fs
              (<[path := mk_file (content f) uid gid (st_mode f) (st_mtime f)]>
                 (fs s)) s.
Proof.
  unfold os_chown. intros H.
  apply bind_returned in H as (f & s1 & Hstat & H).
  apply os_stat_returned in Hstat as [Hf ->].
  erewrite bind_returns in H by reflexivity. unfold id in H.
  destruct (bool_decide _); [| done].
  injection H as <-. by exists f.
Qed.

Lemma shutil_copy_fresh src dst f s :
  fs s !! src = Some f -> fs s !! dst = None -> regular f ->
  shutil_copy src dst s
  = (Returns tt, with_fs (<[dst := copied_file f s]> (fs s)) s).
Proof.
  intros Hsrc Hdst Hreg.
  assert (Hne : src ≠ dst) by (intros ->; congruence).
  unfold shutil_copy.
  erewrite bind_returns by reflexivity. unfold id.
  rewrite Hdst. cbv zeta.
  rewrite (bool_decide_eq_false_2 (src = dst)) by done. cbn [andb].
  rewrite Hsrc, Hdst. cbn [is_pipe]. rewrite (regular_is_a S_IFIFO) by done.
  erewrite bind_returns by (by apply os_stat_run).
  rewrite (regular_is_a S_IFDIR), (regular_is_a S_IFSOCK) by done.
  erewrite bind_returns by reflexivity.
  erewrite os_chmod_run; [| apply lookup_insert_eq | by right].
  unfold with_fs, copied_file; cbn [fs euid egid now launched content st_uid
    st_gid st_mode st_mtime].
  by rewrite insert_insert_eq.
Qed.

(** A copy to a free path that returns has created a file there. *)
Lemma shutil_copy_returned src dst s s' :
  shutil_copy src dst s = (Returns tt, s') -> fs s !! dst = None ->
  exists f,
    fs s !! src = Some f
    /\ s' = with_fs (<[dst := copied_file f s]> (fs s)) s.
Proof.
  intros H Hdst. unfold shutil_copy in H.
  erewrite bind_returns in H by reflexivity. unfold id in H.
  rewrite Hdst in H. cbv zeta in H. rewrite Hdst in H.
  destruct (_ && _); [done |].
  destruct (is_pipe (fs s !! src)); [done |]. cbn [is_pipe] in H.
  apply bind_returned in H as (f & s1 & Hstat & H).
  apply os_stat_returned in Hstat as [Hf ->].
  destruct (is_a S_IFDIR f); [done |].
  destruct (is_a S_IFSOCK f); [done |].
  erewrite bind_returns in H by reflexivity.
  erewrite os_chmod_run in H; [| apply lookup_insert_eq | by right].
  injection H as <-. exists f. split; [done |].
  unfold with_fs, copied_file; cbn [fs euid egid now launched content st_uid
    st_gid st_mode st_mtime].
  by rewrite insert_insert_eq.
Qed.

(** When [filecmp.cmp] tells two files apart. *)
Lemma filecmp_cmp_differ f1 f2 st1 st2 s :
  fs s !! f1 = Some st1 -> fs s !! f2 = Some st2 ->
  content st1 ≠ content st2 ->
  String.length (content st1) ≠ String.length (content st2)
    \/ st_mtime st1 ≠ st_mtime st2 ->
  filecmp_cmp f1 f2 s = (Returns false, s).
Proof.
  intros H1 H2 Hcontent Hsig.
  unfold filecmp_cmp, bind. rewrite (os_stat_run _ _ _ H1), (os_stat_run _ _ _ H2).
  case_bool_decide; [done |].
  rewrite bool_decide_eq_false_2.
  - case_bool_decide; [done |]. unfold ret. by rewrite bool_decide_eq_false_2.
  - unfold _sig. intros Heq. injection Heq as _ Hlen Hmtime. tauto.
Qed.

(** Two regular files of the same size and modification time are taken to be
    the same file, whatever they hold. *)
Lemma filecmp_cmp_shallow f1 f2 st1 st2 s :
  fs s !! f1 = Some st1 -> fs s !! f2 = Some st2 ->
  Z.land (st_mode st1) S_IFMT = S_IFREG ->
  Z.land (st_mode st2) S_IFMT = S_IFREG ->
  String.length (content st1) = String.length (content st2) ->
  st_mtime st1 = st_mtime st2 ->
  filecmp_cmp f1 f2 s = (Returns true, s).
Proof.
  intros H1 H2 Hreg1 Hreg2 Hlen Hmtime.
  unfold filecmp_cmp, bind. rewrite (os_stat_run _ _ _ H1), (os_stat_run _ _ _ H2).
  unfold _sig; simpl. rewrite Hreg1, Hreg2, Hlen, Hmtime.
  rewrite bool_decide_eq_false_2 by tauto.
  by rewrite bool_decide_eq_true_2.
Qed.

Lemma deploy_file_run file_type old_file new_file fo fn s :
  fs s !! old_file = Some fo ->
  fs s !! new_file = Some fn ->
  filecmp_cmp old_file new_file s = (Returns false, s) ->
  is_a S_IFDIR fo = false ->
  regular fn ->
  new_file ≠ old_file ->
  new_file ≠ old_file +:+ ".bak" ->
  (forall g, fs s !! (old_file +:+ ".bak") = Some g -> is_a S_IFDIR g = false) ->
  euid s = 0 ->
  exists s',
    deploy_file file_type old_file new_file s = (Returns true, s')
    /\ fs s' !! old_file = Some (deployed_file fo fn (now s))
    /\ fs s' !! (old_file +:+ ".bak") = Some fo
    /\ (forall path, path ≠ old_file -> path ≠ old_file +:+ ".bak" ->
          fs s' !! path = fs s !! path)
    /\ launched s' = launched s.
Proof.
  intros Hold Hnew Hcmp Hfo Hfn Hne Hbak Hfree Hroot.
  pose proof (bak_differs old_file) as Hob.
  unfold deploy_file.
  erewrite bind_returns by exact Hcmp. cbv beta iota.
  erewrite bind_returns by (by apply os_stat_run).
  erewrite bind_returns by (by apply os_rename_run).
  erewrite bind_returns
    by (apply (shutil_copy_fresh _ _ fn); [| | done];
        unfold with_fs; cbn [fs]; by simplify_map_eq).
  erewrite bind_returns
    by (eapply os_chown_run; [unfold with_fs; cbn [fs]; apply lookup_insert_eq
                             | done]).
  erewrite bind_returns
    by (eapply os_chmod_run; [unfold with_fs; cbn [fs]; apply lookup_insert_eq
                             | by left]).
  eexists. split; [reflexivity |].
  unfold with_fs, copied_file; cbn [fs euid egid now launched content st_uid
    st_gid st_mode st_mtime].
  split; [by rewrite lookup_insert_eq |].
  split; [by simplify_map_eq |].
  split; [| done].
  intros path Hp1 Hp2. by simplify_map_eq.
Qed.




(** *** Deployment of a domain *)

Lemma deploy_file_types_app domain l1 l2 : forall deployed s,
  deploy_file_types domain (l1 ++ l2) deployed s =
    bind (deploy_file_types domain l1 deployed) (deploy_file_types domain l2) s.
Proof.
  induction l1 as [|[file_type old_file] l1 IH]; intros deployed s; [done |].
  rewrite <- app_comm_cons. cbn [deploy_file_types].
  rewrite bind_assoc.
  erewrite !bind_returns by apply os_path_exists_run.
  destruct (bool_decide _); simpl; [| done].
  rewrite bind_assoc.
  erewrite !bind_returns by apply os_path_exists_run.
  destruct (bool_decide _); simpl; [| done].
  rewrite bind_assoc.
  destruct (deploy_file file_type old_file (LETSENCRYPT_ROOT domain file_type) s)
    as [[deploy_success | e |] s'] eqn:Hfile.
  - erewrite !bind_returns by exact Hfile. apply IH.
  - unfold bind at 1 2. by rewrite Hfile.
  - unfold bind at 1 2. by rewrite Hfile.
Qed.

(** The two nested loops visit the items of the locations one after the
    other. *)
Lemma deploy_locations_concat domain config : forall deployed s,
  deploy_locations domain config deployed s =
    deploy_file_types domain (concat config) deployed s.
Proof.
  induction config as [|loc config IH]; intros deployed s; [done |].
  cbn [deploy_locations concat]. rewrite deploy_file_types_app.
  unfold bind.
  destruct (deploy_file_types domain loc deployed s) as [[d | e |] s'];
    [apply IH | done | done].
Qed.

(** C1, as the code has it: the files of an item are looked for when the
    loop reaches that item. At the first item whose new file or deployed file
    is absent the run exits, in the state the items before it have left:
    nothing is written for that item or any later one, and what was deployed
    for the earlier items stays deployed. *)
Theorem deploy_domain_stops_at_missing_file
    (domain : string) (config : list location)
    (pre : location) (file_type old_file : string) (post : location)
    (deployed : bool) (s s1 : state) :
  concat config = pre ++ (file_type, old_file) :: post ->
  deploy_domain domain [pre] s = (Returns deployed, s1) ->
  fs s1 !! LETSENCRYPT_ROOT domain file_type = None
    \/ fs s1 !! old_file = None ->
  exists msg, deploy_domain domain config s = (Raises (SystemExit msg), s1).
Proof.
  intros Hconfig Hpre Hmissing.
  unfold deploy_domain in *.
  rewrite deploy_locations_concat in Hpre. simpl in Hpre.
  rewrite app_nil_r in Hpre.
  rewrite deploy_locations_concat, Hconfig, deploy_file_types_app.
  unfold bind at 1. rewrite Hpre.
  cbn [deploy_file_types]. unfold bind at 1. rewrite os_path_exists_run.
  destruct (fs s1 !! LETSENCRYPT_ROOT domain file_type) as [fn|] eqn:Hnew.
  - destruct Hmissing as [|Hold]; [done |].
    rewrite bool_decide_eq_true_2 by done. simpl.
    unfold bind at 1. rewrite os_path_exists_run, Hold.
    rewrite bool_decide_eq_false_2 by (by intros [? ?]). simpl.
    by eexists.
  - rewrite bool_decide_eq_false_2 by (by intros [? ?]). simpl.
    by eexists.
Qed.

Lemma deploy_domain_stops_witness :
  exists msg s1,
    deploy_domain "example.com"
      [[("cert", "/etc/x/cert.pem")]; [("privkey", "/etc/x/privkey.pem")]]
      example_state = (Raises (SystemExit msg), s1)
    /\ fs s1 !! "/etc/x/cert.pem.bak" = Some served_cert
    /\ fs s1 !! "/etc/x/privkey.pem" = Some served_key
    /\ fs s1 !! "/etc/x/privkey.pem.bak" = None.
Proof.
  pose (s1 := (deploy_domain "example.com" [[("cert", "/etc/x/cert.pem")]]
                 example_state).2).
  destruct (deploy_domain_stops_at_missing_file "example.com"
              [[("cert", "/etc/x/cert.pem")]; [("privkey", "/etc/x/privkey.pem")]]
              [("cert", "/etc/x/cert.pem")] "privkey" "/etc/x/privkey.pem" []
              true example_state s1) as [msg Hrun].
  - reflexivity.
  - by vm_compute.
  - left. by vm_compute.
  - exists msg, s1. split; [exact Hrun |]. clear Hrun.
    vm_compute. repeat split; reflexivity.
Defined.

(** One file of the domain is missing from the start, and yet the file of an
    earlier item is replaced before the run exits. *)
Lemma missing_file_check_is_not_all_or_nothing :
  ~ (forall domain config s,
       (exists loc file_type old_file,
           loc ∈ config /\ (file_type, old_file) ∈ loc
           /\ (fs s !! LETSENCRYPT_ROOT domain file_type = None
               \/ fs s !! old_file = None)) ->
       fs (deploy_domain domain config s).2 = fs s).
Proof.
  intros H.
  specialize (H "example.com"
                [[("cert", "/etc/x/cert.pem"); ("privkey", "/etc/x/privkey.pem")]]
                example_state).
  assert (Hfs : fs (deploy_domain "example.com"
                      [[("cert", "/etc/x/cert.pem");
                        ("privkey", "/etc/x/privkey.pem")]]
                      example_state).2 !! "/etc/x/cert.pem.bak"
                = Some served_cert) by (by vm_compute).
  rewrite H in Hfs; [by vm_compute in Hfs |].
  exists [("cert", "/etc/x/cert.pem"); ("privkey", "/etc/x/privkey.pem")],
    "privkey", "/etc/x/privkey.pem".
  split; [apply list_elem_of_here |].
  split; [apply list_elem_of_further, list_elem_of_here |].
  left. by vm_compute.
Qed.

(** *** Post-deployment actions *)

Lemma quiet_ret {A} (a : A) : quiet (ret a).
Proof. done. Qed.

Lemma quiet_raise {A} (e : exn) : quiet (@raise state A e).
Proof. done. Qed.

Lemma quiet_gets {A} (f : state -> A) : quiet (gets f).
Proof. done. Qed.

Lemma quiet_set_fs f : quiet (set_fs f).
Proof. done. Qed.

Lemma quiet_os_stat path : quiet (os_stat path).
Proof. intros s. unfold os_stat. by destruct (fs s !! path). Qed.

Lemma quiet_bind {A B} (m : M state A) (k : A -> M state B) :
  quiet m -> (forall a, quiet (k a)) -> quiet (bind m k).
Proof.
  intros Hm Hk s. unfold bind. specialize (Hm s).
  destruct (m s) as [[a | e |] s']; simpl in *; [| done | done].
  by rewrite Hk.
Qed.

Lemma quiet_if {A} (b : bool) (m1 m2 : M state A) :
  quiet m1 -> quiet m2 -> quiet (if b then m1 else m2).
Proof. by destruct b. Qed.

Create HintDb quiet.
#[local] Hint Resolve quiet_ret quiet_raise quiet_gets quiet_set_fs
  quiet_os_stat quiet_if : quiet.
#[local] Hint Extern 2 (quiet (bind _ _)) =>
  apply quiet_bind; [| intros ?] : quiet.
#[local] Hint Extern 3 (quiet (match ?scrutinee with _ => _ end)) =>
  destruct scrutinee : quiet.

Lemma quiet_os_rename src dst : quiet (os_rename src dst).
Proof. unfold os_rename. auto 20 with quiet. Qed.

Lemma quiet_os_chown path uid gid : quiet (os_chown path uid gid).
Proof. unfold os_chown. auto 20 with quiet. Qed.

Lemma quiet_os_chmod path mode : quiet (os_chmod path mode).
Proof. unfold os_chmod. auto 20 with quiet. Qed.

Lemma quiet_shutil_copy src dst : quiet (shutil_copy src dst).
Proof.
  unfold shutil_copy. apply quiet_bind; [apply quiet_gets |]. intros s.
  cbv zeta. pose proof quiet_os_chmod. auto 20 with quiet.
Qed.

Lemma quiet_filecmp_cmp f1 f2 : quiet (filecmp_cmp f1 f2).
Proof. unfold filecmp_cmp. auto 20 with quiet. Qed.

Lemma quiet_deploy_file file_type old_file new_file :
  quiet (deploy_file file_type old_file new_file).
Proof.
  unfold deploy_file.
  pose proof quiet_filecmp_cmp. pose proof quiet_os_rename.
  pose proof quiet_shutil_copy. pose proof quiet_os_chown.
  pose proof quiet_os_chmod.
  auto 20 with quiet.
Qed.

Lemma quiet_deploy_file_types domain loc : forall deployed,
  quiet (deploy_file_types domain loc deployed).
Proof.
  induction loc as [|[file_type old_file] loc IH]; intros deployed;
    cbn [deploy_file_types]; unfold os_path_exists, sys_exit.
  - auto with quiet.
  - pose proof (quiet_deploy_file file_type old_file
                  (LETSENCRYPT_ROOT domain file_type)).
    auto 20 with quiet.
Qed.

Lemma quiet_deploy_domain domain config : quiet (deploy_domain domain config).
Proof.
  unfold deploy_domain. generalize false.
  induction config as [|loc config IH]; intros deployed;
    cbn [deploy_locations].
  - auto with quiet.
  - pose proof (quiet_deploy_file_types domain loc deployed).
    auto with quiet.
Qed.

Lemma true_in_reports (d : bool) (reports : list bool) :
  (if d then true else bool_decide (true ∈ reports))
  = bool_decide (true ∈ d :: reports).
Proof.
  destruct d.
  - symmetry. apply bool_decide_eq_true_2. left.
  - apply bool_decide_ext. rewrite elem_of_cons.
    split; [by right | by intros [? | ?]].
Qed.

Section Run.

Variable home : string.
Variable yaml_load : string -> option config.
Variable subprocess_call : string -> option Z.

(** The flag [saw_new_deployments] is the disjunction of the reports. *)
Lemma deploy_domains_reports doms : forall saw0 s,
  launched (deploy_domains doms saw0 s).2 = launched s
  /\ forall saw s',
       deploy_domains doms saw0 s = (Returns saw, s') ->
       saw = saw0 || bool_decide (true ∈ domain_reports doms s).
Proof.
  induction doms as [|[domain locations] doms IH]; intros saw0 s.
  - split; [done |]. intros saw s' [= <- <-]. by destruct saw0.
  - cbn [Deploy.deploy_domains domain_reports]. unfold bind.
    pose proof (quiet_deploy_domain domain locations s) as Hq.
    destruct (deploy_domain domain locations s) as [[deployed | e |] s1];
      simpl in Hq; [| done | done].
    destruct (IH (if deployed then true else saw0) s1) as [Hl Hsaw].
    split; [by rewrite Hl |].
    intros saw s' Hrun. rewrite (Hsaw _ _ Hrun), <- true_in_reports.
    destruct deployed; [by rewrite orb_true_r | done].
Qed.

(** The actions of a run of the loop that went through all of them. *)
Lemma run_actions_returned actions : forall s s',
  run_actions subprocess_call actions s = (Returns tt, s') ->
  s' = mk_state (fs s) (euid s) (egid s) (now s)
         (launched s ++ map (fun action => (action, subprocess_call action))
                            actions).
Proof.
  induction actions as [|action actions IH]; intros s s'.
  - intros [= <-]. simpl. rewrite app_nil_r. by destruct s.
  - cbn [Deploy.run_actions]. unfold launch.
    destruct (has_nul action); [done |].
    erewrite bind_returns by reflexivity.
    intros Hrest. apply IH in Hrest as ->. simpl. by rewrite <- app_assoc.
Qed.

(** C6, as the code has it: in a run of [run_deployment] that completes,
    every configured action is launched, once and in order, if at least one
    domain reported a change, and no action is launched if no domain did. *)
Theorem post_actions_follow_reports (s s' : state) :
  run_deployment home yaml_load subprocess_call s = (Returns tt, s') ->
  exists f config doms,
    fs s !! CONFIG_FILE home = Some f
    /\ yaml_load (content f) = Some config
    /\ domains config = Some doms
    /\ (true ∈ domain_reports doms s ->
        exists actions,
          post_actions config = Some actions
          /\ launched s' =
               launched s
               ++ map (fun action => (action, subprocess_call action))
                      actions)
    /\ (true ∉ domain_reports doms s -> launched s' = launched s).
Proof.
  unfold Deploy.run_deployment, parse_config.
  rewrite bind_assoc.
  erewrite bind_returns by apply os_path_exists_run.
  destruct (fs s !! CONFIG_FILE home) as [f|] eqn:Hconf.
  2: { by rewrite bool_decide_eq_false_2 by (by intros [? ?]). }
  rewrite bool_decide_eq_true_2 by done. cbn [negb].
  rewrite !bind_assoc. erewrite bind_returns by (by apply os_stat_run).
  destruct (yaml_load (content f)) as [config|] eqn:Hyaml; [| done].
  erewrite bind_returns by reflexivity.
  destruct (domains config) as [doms|] eqn:Hdoms; [| done].
  erewrite bind_returns by reflexivity.
  destruct (deploy_domains_reports doms false s) as [Hquiet Hsaw].
  destruct (deploy_domains doms false s) as [[saw | e1 |] s1] eqn:Hrun;
    simpl in Hquiet.
  - erewrite !bind_returns by exact Hrun.
    specialize (Hsaw saw s1 eq_refl). simpl in Hsaw.
    destruct saw.
    + destruct (post_actions config) as [actions|] eqn:Hactions; [| done].
      erewrite !bind_returns by reflexivity.
      intros Hdone. apply run_actions_returned in Hdone as ->.
      exists f, config, doms. repeat split; try done.
      * intros _. exists actions. split; [done |]. simpl. by rewrite Hquiet.
      * intros Hnone. symmetry in Hsaw.
        by apply bool_decide_eq_true_1 in Hsaw.
    + intros [= <-]. exists f, config, doms. repeat split; try done.
      intros Hsome. symmetry in Hsaw.
      by apply bool_decide_eq_false_1 in Hsaw.
  - by erewrite !bind_raises by exact Hrun.
  - by erewrite !bind_pending by exact Hrun.
Qed.

End Run.

(** The configuration file of a user whose home is the root directory. *)
Lemma CONFIG_FILE_at_root : CONFIG_FILE "/" = "/.config/dehydrated/deploy.conf".
Proof. reflexivity. Qed.

Lemma post_actions_follow_reports_witness :
  let s := mk_state (fs example_machine) 0 0 300 [] in
  let cfg := mk_config (Some [("example.com", [[("cert", "/etc/x/cert.pem")]])])
                       (Some ["service nginx reload"]) in
  exists s',
    run_deployment "/root" (fun _ => Some cfg) (fun _ => Some 0) s
      = (Returns tt, s')
    /\ launched s' = [("service nginx reload", Some 0)].
Proof.
  intros s cfg.
  pose (s' := (run_deployment "/root" (fun _ => Some cfg)
                 (fun _ => Some 0) s).2).
  assert (Hrun : run_deployment "/root" (fun _ => Some cfg) (fun _ => Some 0) s
                 = (Returns tt, s')) by (by vm_compute).
  destruct (post_actions_follow_reports "/root" (fun _ => Some cfg)
              (fun _ => Some 0) s s' Hrun)
    as (f & config & doms & _ & Hyaml & Hdoms & Hsome & _).
  injection Hyaml as <-. injection Hdoms as <-.
  destruct Hsome as (actions & Hactions & Hlaunched).
  - vm_compute. left.
  - injection Hactions as <-. exists s'. by split.
Defined.

(** The first domain is deployed and reports a change, the second has no new
    certificate: the run exits there and the action is never launched. *)
Lemma change_without_post_action :
  ~ (forall home yaml_load subprocess_call s f config doms actions,
       fs s !! CONFIG_FILE home = Some f ->
       yaml_load (content f) = Some config ->
       domains config = Some doms ->
       post_actions config = Some actions ->
       (true ∈ domain_reports doms s ->
        launched (run_deployment home yaml_load subprocess_call s).2 =
          launched s
          ++ map (fun action => (action, subprocess_call action)) actions)
       /\ (true ∉ domain_reports doms s ->
           launched (run_deployment home yaml_load subprocess_call s).2
           = launched s)).
Proof.
  intros H.
  destruct (H "/root" (fun _ => Some example_config) (fun _ => Some 0)
              example_machine (mk_file "domains: ..." 0 0 0x81A4 50)
              example_config
              [("example.com", [[("cert", "/etc/x/cert.pem")]]);
               ("example.org", [[("cert", "/etc/y/cert.pem")]])]
              ["service nginx reload"]) as [Hsome _]; try reflexivity.
  assert (Hreports : true ∈ domain_reports
            [("example.com", [[("cert", "/etc/x/cert.pem")]]);
             ("example.org", [[("cert", "/etc/y/cert.pem")]])]
            example_machine) by (vm_compute; left).
  specialize (Hsome Hreports). vm_compute in Hsome. discriminate.
Qed.

End DeployFacts.

(** ** Further properties of hook.py *)

Module HookMore.

Import Hook StringFacts HookFacts Reading.

Local Open Scope proc_scope.

(** *** Looking a record up *)

(** X1: [record_exists] answers with the value of the first record of the
    list that has the name asked for, whatever the type of that record, and
    with nothing when no record has the name. It sends one request and
    changes neither the records at the provider nor the counter. *)
Theorem record_exists_first_match (name : string) (s : state) :
  (forall v,
      (record_exists name s).1 = Returns (Some v) <->
      exists before i after,
        zone s = before ++ i :: after
        /\ (forall j, j ∈ before -> record j ≠ name)
        /\ record i = name /\ value i = v)
  /\ ((record_exists name s).1 = Returns None <->
      forall i, i ∈ zone s -> record i ≠ name)
  /\ zone (record_exists name s).2 = zone s
  /\ DNS_COUNTER (record_exists name s).2 = DNS_COUNTER s
  /\ api_calls (since s (record_exists name s).2) = [ListRecords].
Proof.
  rewrite record_exists_run; simpl. repeat split.
  - intros [= H]. by apply find_record_Some.
  - intros H. f_equal. by apply find_record_Some.
  - intros [= H]. by apply find_record_None.
  - intros H. f_equal. by apply find_record_None.
  - erewrite since_app by done. simpl.
    by rewrite api_call_of_list by apply lookup_insert_eq.
Qed.

(** *** Arguments *)

(** X2: with fewer than three arguments [deploy_challenge] raises
    [IndexError] before it sends anything: the state is what it was. *)
Theorem deploy_challenge_needs_three_arguments
    (args : list string) (replies : list resolver_reply) (s : state) :
  (length args < 3)%nat ->
  deploy_challenge args replies s = (Raises IndexError, s).
Proof.
  intros Hlen.
  destruct args as [|domain [|x [|token rest]]]; try done.
  simpl in Hlen. lia.
Qed.

Lemma deploy_challenge_needs_three_arguments_witness :
  (length ["example.com"; "unused"] < 3)%nat
  /\ deploy_challenge ["example.com"; "unused"] [Answer [["tokenABC"]]]
       (initial_state "key" []) = (Raises IndexError, initial_state "key" []).
Proof.
  split; [simpl; lia |].
  apply deploy_challenge_needs_three_arguments. simpl. lia.
Defined.

(** *** A whole run of [deploy_challenge] *)

Lemma slept_app t1 t2 : slept (t1 ++ t2) = slept t1 + slept t2.
Proof.
  induction t1 as [|e t1 IH]; [done |].
  destruct e; simpl; rewrite IH; lia.
Qed.

Lemma slept_unsuccessful record n :
  slept (unsuccessful_polls record n) = 30 * Z.of_nat n.
Proof. induction n as [|n IH]; simpl; [done | lia]. Qed.

(** The events of [deploy_challenge] up to the first poll. *)
Lemma deploy_challenge_prelude domain x token rest replies s :
  let record := DNS_PREFIX +:+ "." +:+ domain in
  let p1 := <["cmd" := "dns-list_records"]> (HOST_API_PARAMS s) in
  exists s3 before,
    deploy_challenge (domain :: x :: token :: rest) replies s
      = wait_for_propagation record token replies s3
    /\ trace s3 = trace s ++ before
    /\ DNS_COUNTER s3 = DNS_COUNTER s
    /\ before =
         match find_record record (zone s) with
         | Some stale =>
             [Http HOST_API_ROOT p1;
              Http HOST_API_ROOT (written "dns-remove_record" record stale p1);
              Sleep 10;
              Http HOST_API_ROOT
                (written "dns-add_record" record token
                   (written "dns-remove_record" record stale p1));
              Sleep 10]
         | None =>
             [Http HOST_API_ROOT p1;
              Http HOST_API_ROOT (written "dns-add_record" record token p1);
              Sleep 10]
         end.
Proof.
  intros record p1. rewrite deploy_challenge_run. fold record.
  eexists _, _. split; [reflexivity |].
  split; [| split; [| reflexivity]];
    rewrite record_exists_run; simpl; fold p1;
    destruct (find_record record (zone s)) as [stale|];
    rewrite ?remove_record_run; simpl; rewrite add_record_run; simpl;
    by rewrite <- ?app_assoc.
Qed.

(** X3: a [deploy_challenge] run whose replies bring the counter to 3
    returns at that poll, and its events are, in this order: the list
    request; when the provider lists a record of the challenge name, the
    remove request with the value of the first such record and a sleep of 10
    seconds; the add request with the token and a sleep of 10 seconds; then,
    for each poll before the last, the query and a sleep of 30 seconds; and
    the last query. *)
Theorem deploy_challenge_returns
    (domain x token : string) (rest : list string)
    (pre : list resolver_reply) (hit : resolver_reply)
    (post : list resolver_reply) (s : state) :
  0 <= DNS_COUNTER s ->
  DNS_COUNTER s + Z.of_nat (hits token pre) = 2 ->
  confirms token hit = true ->
  let name := DNS_PREFIX +:+ "." +:+ domain in
  let p1 := <["cmd" := "dns-list_records"]> (HOST_API_PARAMS s) in
  let polling := unsuccessful_polls name (length pre) ++ [Query name "TXT"] in
  exists s',
    deploy_challenge (domain :: x :: token :: rest) (pre ++ hit :: post) s
      = (Returns tt, s')
    /\ DNS_COUNTER s' = 3
    /\ ((forall i, i ∈ zone s -> record i ≠ name) ->
        since s s' =
          [Http HOST_API_ROOT p1;
           Http HOST_API_ROOT (written "dns-add_record" name token p1);
           Sleep 10]
          ++ polling)
    /\ (forall before i after,
          zone s = before ++ i :: after ->
          (forall j, j ∈ before -> record j ≠ name) ->
          record i = name ->
          since s s' =
            [Http HOST_API_ROOT p1;
             Http HOST_API_ROOT (written "dns-remove_record" name (value i) p1);
             Sleep 10;
             Http HOST_API_ROOT
               (written "dns-add_record" name token
                  (written "dns-remove_record" name (value i) p1));
             Sleep 10]
            ++ polling).
Proof.
  intros Hpos Hc Hhit name p1 polling.
  destruct (deploy_challenge_prelude domain x token rest (pre ++ hit :: post) s)
    as (s3 & evs & Hrun & Htrace & Hcounter & Hevs).
  fold name in Hrun, Hevs. fold p1 in Hevs. subst polling.
  clearbody name p1.
  rewrite Hrun.
  rewrite wait_for_propagation_returns by (rewrite ?Hcounter; done).
  eexists. split; [reflexivity |]. cbn [DNS_COUNTER]. split; [done |].
  assert (Hsince : forall s',
             trace s' = trace s3 ++ unsuccessful_polls name (length pre)
                          ++ [Query name "TXT"] ->
             since s s' = evs ++ unsuccessful_polls name (length pre)
                            ++ [Query name "TXT"]).
  { intros s' Hs'. apply since_app. by rewrite Hs', Htrace, <- app_assoc. }
  rewrite Hsince by reflexivity. split.
  - intros Hnone. apply find_record_None in Hnone.
    by rewrite Hevs, Hnone.
  - intros before i after Hzone Hbefore Hi.
    assert (Hfound : find_record name (zone s) = Some (value i)).
    { apply find_record_Some. by exists before, i, after. }
    by rewrite Hevs, Hfound.
Qed.

Lemma deploy_challenge_returns_witness :
  let s := initial_state "key"
             [mk_item "_acme-challenge.example.com" "TXT" "old";
              mk_item "_acme-challenge.example.com" "TXT" "older"] in
  exists s',
    deploy_challenge ["example.com"; "unused"; "tokenABC"]
      ([Answer [["tokenABC"]]; QueryFailed NXDOMAIN; Answer [["tokenABC"]]]
       ++ Answer [["tokenABC"]] :: []) s = (Returns tt, s')
    /\ api_calls (since s s') =
         [ListRecords;
          RemoveRecord (Some "_acme-challenge.example.com") (Some "TXT")
            (Some "old");
          AddRecord (Some "_acme-challenge.example.com") (Some "TXT")
            (Some "tokenABC")]
    /\ polls (since s s') = 4%nat
    /\ slept (since s s') = 110.
Proof.
  intros s.
  pose proof (deploy_challenge_returns "example.com" "unused" "tokenABC" []
                [Answer [["tokenABC"]]; QueryFailed NXDOMAIN;
                 Answer [["tokenABC"]]]
                (Answer [["tokenABC"]]) [] s) as H.
  destruct H as (s' & Hrun & _ & _ & Hstale);
    [simpl; lia | by vm_compute | by vm_compute |].
  exists s'. split; [exact Hrun |].
  rewrite (Hstale [] (mk_item "_acme-challenge.example.com" "TXT" "old")
             [mk_item "_acme-challenge.example.com" "TXT" "older"]).
  - by vm_compute.
  - reflexivity.
  - intros j Hj. by apply elem_of_nil in Hj.
  - reflexivity.
Defined.

(** *** Cleaning up *)

(** X4: when the provider lists a record of the challenge name,
    [clean_challenge] sleeps 30 seconds and then asks once for the removal of
    a TXT record of that name with the value of the first such record; it
    adds nothing and returns. *)
Theorem clean_challenge_removes_first
    (domain : string) (rest : list string) (stale : string) (s : state) :
  find_record (DNS_PREFIX +:+ "." +:+ domain) (zone s) = Some stale ->
  exists s' p1 p2,
    clean_challenge (domain :: rest) s = (Returns tt, s')
    /\ since s s' = [Http HOST_API_ROOT p1; Sleep 30; Http HOST_API_ROOT p2]
    /\ api_call_of p1 = ListRecords
    /\ api_call_of p2 =
         RemoveRecord (Some (DNS_PREFIX +:+ "." +:+ domain)) (Some "TXT")
           (Some stale).
Proof.
  intros Hfound.
  unfold clean_challenge, arg; simpl.
  unfold bind, ret, sleep, emit, modify; simpl.
  rewrite record_exists_run; simpl. rewrite Hfound.
  rewrite remove_record_run; simpl.
  eexists _, _, _. split; [reflexivity |]. simpl.
  split; [apply since_app; by rewrite <- !app_assoc |].
  split; [apply api_call_of_list, lookup_insert_eq |].
  apply api_call_of_written_remove.
Qed.

Lemma clean_challenge_removes_first_witness :
  let s := initial_state "key"
             [mk_item "_acme-challenge.example.com" "TXT" "old";
              mk_item "_acme-challenge.example.com" "TXT" "older"] in
  exists s',
    clean_challenge ["example.com"] s = (Returns tt, s')
    /\ api_calls (since s s') =
         [ListRecords;
          RemoveRecord (Some "_acme-challenge.example.com") (Some "TXT")
            (Some "old")].
Proof.
  intros s.
  destruct (clean_challenge_removes_first "example.com" [] "old" s)
    as (s' & p1 & p2 & Hrun & Hsince & H1 & H2); [reflexivity |].
  exists s'. split; [exact Hrun |].
  rewrite Hsince. simpl. by rewrite H1, H2.
Defined.

(** *** What every request carries *)

Lemma written_keeps cmd r v (p : gmap string string) k :
  k ≠ "cmd" -> k ≠ "record" -> k ≠ "type" -> k ≠ "value" ->
  written cmd r v p !! k = p !! k.
Proof. intros. unfold written. by simplify_map_eq. Qed.

Lemma authenticated_quiet key format evs :
  api_calls evs = [] -> authenticated key format evs.
Proof.
  unfold authenticated. induction evs as [|e evs IH]; [done |].
  destruct e; simpl; [done | |]; intros H; constructor; auto.
Qed.

(** X5: every request [deploy_challenge] and [clean_challenge] send goes to
    the API root and carries the [key] and [format] entries the dictionary had
    when the operation began: no write to the shared dictionary touches
    them. *)
Theorem requests_are_authenticated
    (domain x token : string) (rest : list string)
    (replies : list resolver_reply) (s : state) :
  let key := HOST_API_PARAMS s !! "key" in
  let format := HOST_API_PARAMS s !! "format" in
  authenticated key format
    (since s (deploy_challenge (domain :: x :: token :: rest) replies s).2)
  /\ authenticated key format
       (since s (clean_challenge (domain :: rest) s).2).
Proof.
  intros key format.
  assert (Hlist : forall k, k ≠ "cmd" ->
            <["cmd" := "dns-list_records"]> (HOST_API_PARAMS s) !! k
            = HOST_API_PARAMS s !! k).
  { intros k Hk. by rewrite lookup_insert_ne. }
  split.
  - destruct (deploy_challenge_prelude domain x token rest replies s)
      as (s3 & before & Hrun & Htrace & _ & Hbefore).
    rewrite Hrun.
    destruct (wait_for_propagation_quiet (DNS_PREFIX +:+ "." +:+ domain)
                token replies s3) as (evs & Hevs & Hcalls & _).
    erewrite since_app by (rewrite Hevs, Htrace, <- app_assoc; reflexivity).
    apply Forall_app. split; [| by apply authenticated_quiet].
    rewrite Hbefore.
    destruct (find_record _ (zone s)); repeat constructor;
      rewrite ?written_keeps, ?Hlist by done; done.
  - unfold clean_challenge, arg; simpl.
    unfold bind, ret, sleep, emit, modify; simpl.
    rewrite record_exists_run; simpl.
    destruct (find_record _ (zone s)) as [stale|].
    + rewrite remove_record_run; simpl.
      erewrite since_app by (by rewrite <- !app_assoc).
      repeat constructor; rewrite ?written_keeps, ?Hlist by done; done.
    + erewrite since_app by done.
      repeat constructor; rewrite ?Hlist by done; done.
Qed.

(** *** Tokens that need escaping *)

Lemma escapify_byte_not_plain c :
  plain_byte c = false -> (2 <= String.length (escapify_byte c))%nat.
Proof.
  unfold plain_byte, escapify_byte.
  destruct (bool_decide (c = dquote \/ c = backslash));
    [intros _; cbn [String.length]; lia |].
  destruct (32 <=? nat_of_ascii c)%nat, (nat_of_ascii c <? 127)%nat;
    cbn [negb andb]; intros Hplain; try discriminate Hplain;
    cbn [String.length]; lia.
Qed.

Lemma escapify_not_plain s :
  plain s = false -> (String.length s < String.length (_escapify s))%nat.
Proof.
  induction s as [|c s IH]; simpl; [done |].
  rewrite length_append. intros H. apply andb_false_iff in H as [Hc | Hs].
  - pose proof (escapify_byte_not_plain c Hc).
    pose proof (escapify_length s). lia.
  - pose proof (escapify_byte_length c). specialize (IH Hs). lia.
Qed.

(** X6: a TXT record of one segment that holds exactly the token is
    recognised if and only if the token has only printable bytes other than
    the double quote and the backslash: the text form escapes every other
    byte, and the escaped text is compared. *)
Theorem single_segment_recognised_iff_plain
    (record token : string) (s : state) :
  DNS_COUNTER (has_dns_propagated record token (Answer [[token]]) s).2
    = DNS_COUNTER s + 1
  <-> plain token = true.
Proof.
  rewrite counter_after_poll, confirms_single, to_text_cons, slice_between.
  cbn [later_segments]. rewrite append_empty_r.
  destruct (plain token) eqn:Hplain.
  - rewrite plain_escapify by done. by rewrite bool_decide_eq_true_2.
  - rewrite bool_decide_eq_false_2; [split; [lia | done] |].
    intros Heq. apply escapify_not_plain in Hplain.
    rewrite <- Heq in Hplain. lia.
Qed.

(** *** The record at the provider *)

Lemma dreamhost_add r v p z :
  mk_item r "TXT" v ∉ z ->
  (dreamhost_api (written "dns-add_record" r v p) z).2
  = z ++ [mk_item r "TXT" v].
Proof.
  intros Hnew. unfold dreamhost_api.
  destruct (written_lookup "dns-add_record" r v p) as (-> & -> & -> & ->).
  rewrite bool_decide_eq_false_2 by discriminate.
  rewrite bool_decide_eq_true_2 by done.
  by rewrite bool_decide_eq_false_2.
Qed.

Lemma dreamhost_remove r v p z :
  mk_item r "TXT" v ∈ z ->
  (dreamhost_api (written "dns-remove_record" r v p) z).2
  = filter (fun j => j ≠ mk_item r "TXT" v) z.
Proof.
  intros Hthere. unfold dreamhost_api.
  destruct (written_lookup "dns-remove_record" r v p) as (-> & -> & -> & ->).
  do 2 rewrite bool_decide_eq_false_2 by discriminate.
  rewrite bool_decide_eq_true_2 by done.
  by rewrite bool_decide_eq_true_2.
Qed.

Lemma find_record_app name z l :
  find_record name z = None ->
  find_record name (z ++ l) = find_record name l.
Proof.
  induction z as [|a z IH]; simpl; [done |].
  case_bool_decide; [done | apply IH].
Qed.

Lemma filter_out_added (i : dns_item) z :
  i ∉ z -> filter (fun j => j ≠ i) (z ++ [i]) = z.
Proof.
  intros Hi. rewrite filter_app, filter_cons_False, filter_nil, app_nil_r.
  - induction z as [|a z IH]; [done |].
    apply not_elem_of_cons in Hi as [Ha Hz].
    rewrite filter_cons_True by done. by rewrite IH.
  - by intros H.
Qed.

(** X7: with a provider that holds no record of the challenge name,
    [deploy_challenge] leaves one more record there, the TXT record of that
    name with the token, and a [clean_challenge] for the domain after it
    leaves the records as they were before the two operations. *)
Theorem challenge_record_is_added_then_removed
    (domain x token : string) (rest rest' : list string)
    (replies : list resolver_reply) (s : state) :
  let record := DNS_PREFIX +:+ "." +:+ domain in
  (forall i, i ∈ zone s -> Hook.record i ≠ record) ->
  let s1 := (deploy_challenge (domain :: x :: token :: rest) replies s).2 in
  zone s1 = zone s ++ [mk_item record "TXT" token]
  /\ exists s2,
       clean_challenge (domain :: rest') s1 = (Returns tt, s2)
       /\ zone s2 = zone s.
Proof.
  intros record Hnone s1.
  assert (Hfresh : mk_item record "TXT" token ∉ zone s).
  { intros Hin. by apply (Hnone _ Hin). }
  apply find_record_None in Hnone.
  assert (Hzone : zone s1 = zone s ++ [mk_item record "TXT" token]).
  { subst s1. rewrite deploy_challenge_run. fold record.
    match goal with |- context [wait_for_propagation _ _ _ ?s3] =>
      destruct (wait_for_propagation_quiet record token replies s3)
        as (_ & _ & _ & ->) end.
    rewrite record_exists_run; simpl. rewrite Hnone.
    rewrite add_record_run; simpl. by apply dreamhost_add. }
  split; [exact Hzone |]. clearbody s1.
  unfold clean_challenge, arg; simpl.
  unfold bind, ret, sleep, emit, modify; simpl. fold record.
  rewrite record_exists_run; simpl.
  rewrite Hzone, find_record_app by done.
  cbn [find_record Hook.record value].
  rewrite bool_decide_eq_true_2 by done.
  rewrite remove_record_run; simpl.
  eexists. split; [reflexivity |]. simpl.
  rewrite dreamhost_remove by (apply elem_of_app; right; left).
  by apply filter_out_added.
Qed.

Lemma challenge_record_is_added_then_removed_witness :
  let s := initial_state "key" [mk_item "www.example.com" "A" "192.0.2.1"] in
  let s1 := (deploy_challenge ["example.com"; "unused"; "tokenABC"] [] s).2 in
  (forall i, i ∈ zone s ->
     Hook.record i ≠ DNS_PREFIX +:+ "." +:+ "example.com")
  /\ zone s1 =
       [mk_item "www.example.com" "A" "192.0.2.1";
        mk_item "_acme-challenge.example.com" "TXT" "tokenABC"]
  /\ exists s2,
       clean_challenge ["example.com"] s1 = (Returns tt, s2)
       /\ zone s2 = [mk_item "www.example.com" "A" "192.0.2.1"].
Proof.
  intros s s1.
  assert (Hnone : forall i, i ∈ zone s ->
                    Hook.record i ≠ DNS_PREFIX +:+ "." +:+ "example.com").
  { apply find_record_None. reflexivity. }
  split; [exact Hnone |].
  exact (challenge_record_is_added_then_removed "example.com" "unused"
           "tokenABC" [] [] [] s Hnone).
Defined.

End HookMore.

(** ** Further properties of deploy.py *)

Module DeployMore.

Import Deploy StringFacts MonadFacts DeployFacts Reading.

Local Open Scope proc_scope.

(** *** Comparing *)

Lemma filecmp_cmp_same f1 f2 st1 st2 s :
  fs s !! f1 = Some st1 -> fs s !! f2 = Some st2 ->
  regular st1 -> regular st2 ->
  content st1 = content st2 ->
  filecmp_cmp f1 f2 s = (Returns true, s).
Proof.
  unfold regular. intros H1 H2 Hreg1 Hreg2 Hcontent.
  unfold filecmp_cmp, bind.
  rewrite (os_stat_run _ _ _ H1), (os_stat_run _ _ _ H2).
  unfold _sig; cbn [fst snd]. rewrite Hreg1, Hreg2, Hcontent.
  rewrite bool_decide_eq_false_2 by tauto.
  case_bool_decide; [done |].
  rewrite bool_decide_eq_false_2 by (by intros H'; apply H').
  unfold ret. by rewrite bool_decide_eq_true_2.
Qed.

Lemma filecmp_cmp_inv f1 f2 s o s' :
  filecmp_cmp f1 f2 s = (o, s') ->
  s' = s
  /\ match o with
     | Returns _ => exists st1 st2, fs s !! f1 = Some st1 /\ fs s !! f2 = Some st2
     | Raises e =>
         (fs s !! f1 = None /\ e = FileNotFoundError f1)
         \/ (is_Some (fs s !! f1) /\ fs s !! f2 = None
             /\ e = FileNotFoundError f2)
     | Pending => False
     end.
Proof.
  unfold filecmp_cmp, bind, os_stat, ret.
  destruct (fs s !! f1) as [st1|] eqn:H1.
  2: { intros [= <- <-]. split; [done |]. by left. }
  destruct (fs s !! f2) as [st2|] eqn:H2.
  2: { intros [= <- <-]. split; [done |]. right. by eauto. }
  repeat case_bool_decide; intros [= <- <-]; split; eauto.
Qed.

(** X8: on two regular files with the same bytes [deploy_file] reports no
    change and leaves the machine exactly as it was, whatever the owners,
    permissions and times of the two files. *)
Theorem deploy_file_same_content
    (file_type old_file new_file : string) (fo fn : file) (s : state) :
  fs s !! old_file = Some fo ->
  fs s !! new_file = Some fn ->
  regular fo -> regular fn ->
  content fo = content fn ->
  deploy_file file_type old_file new_file s = (Returns false, s).
Proof.
  intros Hold Hnew Hro Hrn Hcontent. unfold deploy_file.
  erewrite bind_returns by (by eapply filecmp_cmp_same).
  reflexivity.
Qed.

Lemma deploy_file_same_content_witness :
  let s := mk_state (<["/etc/x/cert.pem" := mk_file "CERT" 33 33 0x81A0 100]>
                       (<["/new/cert.pem" := mk_file "CERT" 0 0 0x81A4 200]> ∅))
                    0 0 300 [] in
  deploy_file "cert" "/etc/x/cert.pem" "/new/cert.pem" s = (Returns false, s).
Proof.
  intros s.
  apply (deploy_file_same_content "cert" "/etc/x/cert.pem" "/new/cert.pem"
           (mk_file "CERT" 33 33 0x81A0 100) (mk_file "CERT" 0 0 0x81A4 200));
    reflexivity.
Defined.



(** *** What a deployment leaves alone *)



Lemma deployed_file_regular fo fn t : regular (deployed_file fo fn t).
Proof.
  unfold regular, deployed_file, S_IMODE, S_IFMT, S_IFREG; cbn [st_mode].
  rewrite !Z.land_lor_distr_l, <- !Z.land_assoc.
  change (Z.land 0xFFF 0xF000) with 0. change (Z.land 0xF000 0xF000) with 0xF000.
  by rewrite !Z.land_0_r.
Qed.

(** X11: a deployment done twice is done once. In a process that has not
    compared the two paths before, right after a privileged [deploy_file]
    has replaced a regular destination by a regular new file, a second call
    on the same paths reports no change and writes nothing, so the backup
    still holds the original. The original file is not one of the size of
    the new file and of the [st_mtime] the copy gets: for such a file
    [filecmp.cmp] would look up, in the second call, the answer it
    remembered in the first. *)
Theorem deploy_file_twice
    (file_type old_file new_file : string) (fo fn : file) (s : state) :
  fs s !! old_file = Some fo ->
  fs s !! new_file = Some fn ->
  regular fo -> regular fn ->
  content fo ≠ content fn ->
  String.length (content fo) ≠ String.length (content fn)
    \/ st_mtime fo ≠ st_mtime fn ->
  String.length (content fo) ≠ String.length (content fn)
    \/ st_mtime fo ≠ now s ->
  new_file ≠ old_file +:+ ".bak" ->
  (forall g, fs s !! (old_file +:+ ".bak") = Some g -> is_a S_IFDIR g = false) ->
  euid s = 0 ->
  exists s',
    deploy_file file_type old_file new_file s = (Returns true, s')
    /\ deploy_file file_type old_file new_file s' = (Returns false, s')
    /\ fs s' !! (old_file +:+ ".bak") = Some fo.
Proof.
  intros Hold Hnew Hro Hrn Hcontent Hsig _ Hbak Hfree Hroot.
  assert (Hne : new_file ≠ old_file).
  { intros ->. rewrite Hold in Hnew. by injection Hnew as ->. }
  destruct (deploy_file_run file_type old_file new_file fo fn s)
    as (s' & Hrun & Hdst & Hbackup & Hframe & _); try done.
  { by eapply filecmp_cmp_differ. }
  { by apply regular_is_a. }
  exists s'. split; [exact Hrun |]. split; [| exact Hbackup].
  eapply deploy_file_same_content.
  - exact Hdst.
  - by rewrite Hframe.
  - apply deployed_file_regular.
  - exact Hrn.
  - reflexivity.
Qed.

Lemma deploy_file_twice_witness :
  exists s',
    deploy_file "cert" "/etc/x/cert.pem"
      "/etc/dehydrated/certs/example.com/cert.pem" example_state
      = (Returns true, s')
    /\ deploy_file "cert" "/etc/x/cert.pem"
         "/etc/dehydrated/certs/example.com/cert.pem" s'
       = (Returns false, s').
Proof.
  destruct (deploy_file_twice "cert" "/etc/x/cert.pem"
              "/etc/dehydrated/certs/example.com/cert.pem"
              served_cert issued_cert example_state)
    as (s' & Hfirst & Hsecond & _);
    [reflexivity | reflexivity | reflexivity | reflexivity | discriminate
    | right; discriminate | right; discriminate | discriminate
    | intros g Hg; discriminate Hg | reflexivity |].
  by exists s'.
Defined.

(** *** Every way [deploy_file] can end *)

Lemma bind_never_false {A} (m : M state A) (k : A -> M state bool) s s' :
  (forall a s1 s2, k a s1 ≠ (Returns false, s2)) ->
  bind m k s ≠ (Returns false, s').
Proof.
  intros Hk. unfold bind. destruct (m s) as [[a | e |] s1]; [apply Hk | done | done].
Qed.

(** A call that reports no change has changed nothing: once the comparison
    has told the files apart, the only way to return is the last line. *)
Lemma deploy_file_false file_type old_file new_file s s' :
  deploy_file file_type old_file new_file s = (Returns false, s') -> s' = s.
Proof.
  unfold deploy_file. intros Hrun.
  apply bind_returned in Hrun as (same & s0 & Hcmp & Hrun).
  apply filecmp_cmp_inv in Hcmp as [-> _].
  destruct same; [by injection Hrun as <- |].
  exfalso. revert Hrun.
  do 5 (apply bind_never_false; intros ? ? ?). done.
Qed.

Lemma no_exit_ret {A} (a : A) : no_exit (@ret state A a).
Proof. by intros s msg s'. Qed.

Lemma no_exit_gets {A} (f : state -> A) : no_exit (gets f).
Proof. by intros s msg s'. Qed.

Lemma no_exit_set_fs f : no_exit (set_fs f).
Proof. by intros s msg s'. Qed.

Lemma no_exit_raise {A} (e : exn) :
  (forall msg, e ≠ SystemExit msg) -> no_exit (@raise state A e).
Proof. intros He s msg s' [= ->]. by eapply He. Qed.

Lemma no_exit_os_stat path : no_exit (os_stat path).
Proof. intros s msg s'. unfold os_stat. by destruct (fs s !! path). Qed.

Lemma no_exit_bind {A B} (m : M state A) (k : A -> M state B) :
  no_exit m -> (forall a, no_exit (k a)) -> no_exit (bind m k).
Proof.
  intros Hm Hk s msg s'. unfold bind. specialize (Hm s msg).
  destruct (m s) as [[a | e |] s1]; [apply Hk | | done].
  intros [= -> ->]. by eapply Hm.
Qed.

Create HintDb no_exit.
#[local] Hint Resolve no_exit_ret no_exit_gets no_exit_set_fs no_exit_os_stat
  : no_exit.
#[local] Hint Extern 1 (no_exit (raise _)) =>
  apply no_exit_raise; intros ?; discriminate : no_exit.
#[local] Hint Extern 2 (no_exit (bind _ _)) =>
  apply no_exit_bind; [| intros ?] : no_exit.
#[local] Hint Extern 3 (no_exit (match ?scrutinee with _ => _ end)) =>
  destruct scrutinee : no_exit.

Lemma no_exit_os_rename src dst : no_exit (os_rename src dst).
Proof. unfold os_rename. auto 20 with no_exit. Qed.

Lemma no_exit_os_chown path uid gid : no_exit (os_chown path uid gid).
Proof. unfold os_chown. auto 20 with no_exit. Qed.

Lemma no_exit_os_chmod path mode : no_exit (os_chmod path mode).
Proof. unfold os_chmod. auto 20 with no_exit. Qed.

Lemma no_exit_shutil_copy src dst : no_exit (shutil_copy src dst).
Proof.
  unfold shutil_copy. apply no_exit_bind; [apply no_exit_gets |]. intros s.
  cbv zeta. pose proof no_exit_os_chmod. auto 20 with no_exit.
Qed.

Lemma no_exit_filecmp_cmp f1 f2 : no_exit (filecmp_cmp f1 f2).
Proof. unfold filecmp_cmp. auto 20 with no_exit. Qed.

Lemma no_exit_deploy_file file_type old_file new_file :
  no_exit (deploy_file file_type old_file new_file).
Proof.
  unfold deploy_file.
  pose proof no_exit_filecmp_cmp. pose proof no_exit_os_rename.
  pose proof no_exit_shutil_copy. pose proof no_exit_os_chown.
  pose proof no_exit_os_chmod.
  auto 20 with no_exit.
Qed.

(** Where no path holds a directory, a call that returns has either changed
    nothing or put the original at the backup path and a file at the
    destination. *)
Lemma deploy_file_returned file_type old_file new_file s b s' :
  no_directories s ->
  deploy_file file_type old_file new_file s = (Returns b, s') ->
  (b = false /\ s' = s)
  \/ (b = true
      /\ exists fo f',
           fs s !! old_file = Some fo
           /\ is_a S_IFDIR f' = false
           /\ s' = with_fs (<[old_file := f']>
                              (<[old_file +:+ ".bak" := fo]>
                                 (delete old_file (fs s)))) s).
Proof.
  intros Hnd Hrun.
  pose proof (bak_differs old_file) as Hob.
  destruct b; [right | left; split; [done | by eapply deploy_file_false]].
  split; [done |]. unfold deploy_file in Hrun.
  apply bind_returned in Hrun as (same & s0 & Hcmp & Hrun).
  apply filecmp_cmp_inv in Hcmp as [-> _].
  destruct same; [done |].
  apply bind_returned in Hrun as (fo & s0 & Hstat & Hrun).
  apply os_stat_returned in Hstat as [Hold ->].
  erewrite bind_returns in Hrun
    by (apply os_rename_run; [done | done | by eapply Hnd
                             | intros g Hg; by eapply Hnd]).
  apply bind_returned in Hrun as ([] & s2 & Hcopy & Hrun).
  apply shutil_copy_returned in Hcopy as (f & _ & ->);
    [| unfold with_fs; cbn [fs]; by simplify_map_eq].
  apply bind_returned in Hrun as ([] & s3 & Hchown & Hrun).
  apply os_chown_returned in Hchown as (f2 & Hf2 & ->).
  apply bind_returned in Hrun as ([] & s4 & Hchmod & Hrun).
  apply os_chmod_returned in Hchmod as (f3 & Hf3 & ->).
  injection Hrun as <-.
  unfold with_fs in *; cbn [fs euid egid now launched] in *.
  rewrite lookup_insert_eq in Hf2. injection Hf2 as <-.
  rewrite lookup_insert_eq in Hf3. injection Hf3 as <-.
  eexists fo, _. split; [done |]. split; [| by rewrite !insert_insert_eq].
  unfold is_a, copied_file; cbn [st_mode].
  rewrite !S_IFMT_chmod. by apply bool_decide_eq_false_2.
Qed.

Lemma keeps_paths_refl s : keeps_paths s s.
Proof. by intros path. Qed.

Lemma keeps_paths_trans s1 s2 s3 :
  keeps_paths s1 s2 -> keeps_paths s2 s3 -> keeps_paths s1 s3.
Proof. intros H12 H23 path Hp. by apply H23, H12. Qed.

Lemma deploy_file_keeps_paths file_type old_file new_file s b s' :
  no_directories s ->
  deploy_file file_type old_file new_file s = (Returns b, s') ->
  keeps_paths s s' /\ no_directories s'.
Proof.
  intros Hnd Hrun.
  destruct (deploy_file_returned _ _ _ _ _ _ Hnd Hrun)
    as [[_ ->] | (_ & fo & f' & Hold & Hf' & ->)].
  - split; [apply keeps_paths_refl | done].
  - split.
    + intros path Hp. unfold with_fs; cbn [fs].
      destruct (decide (path = old_file)) as [-> | Hp1];
        [by rewrite lookup_insert_eq |].
      rewrite lookup_insert_ne by done.
      destruct (decide (path = old_file +:+ ".bak")) as [-> | Hp2];
        [by rewrite lookup_insert_eq |].
      rewrite lookup_insert_ne by done. by rewrite lookup_delete_ne.
    + intros path g. unfold with_fs; cbn [fs].
      destruct (decide (path = old_file)) as [-> | Hp1].
      { rewrite lookup_insert_eq. by intros [= <-]. }
      rewrite lookup_insert_ne by done.
      destruct (decide (path = old_file +:+ ".bak")) as [-> | Hp2].
      { rewrite lookup_insert_eq. intros [= <-]. by eapply Hnd. }
      rewrite lookup_insert_ne by done. rewrite lookup_delete_ne by done.
      apply Hnd.
Qed.

Lemma deploy_file_types_keeps_paths domain loc : forall deployed s o s',
  no_directories s ->
  deploy_file_types domain loc deployed s = (o, s') ->
  settled o -> keeps_paths s s'.
Proof.
  induction loc as [|[file_type old_file] loc IH]; intros deployed s o s' Hnd.
  - intros [= <- <-] _. apply keeps_paths_refl.
  - cbn [deploy_file_types].
    erewrite bind_returns by apply os_path_exists_run.
    destruct (bool_decide _); cbn [negb].
    2: { intros [= <- <-] _. apply keeps_paths_refl. }
    erewrite bind_returns by apply os_path_exists_run.
    destruct (bool_decide _); cbn [negb].
    2: { intros [= <- <-] _. apply keeps_paths_refl. }
    destruct (deploy_file file_type old_file (LETSENCRYPT_ROOT domain file_type) s)
      as [[b | e |] s1] eqn:Hfile.
    + erewrite bind_returns by exact Hfile. intros Hrest Hsettled.
      destruct (deploy_file_keeps_paths _ _ _ _ _ _ Hnd Hfile) as [Hkeeps Hnd1].
      eapply keeps_paths_trans; [exact Hkeeps |]. by eapply IH.
    + erewrite bind_raises by exact Hfile. intros [= <- <-] Hsettled.
      destruct e; try done. by apply no_exit_deploy_file in Hfile.
    + erewrite bind_pending by exact Hfile. by intros [= <- <-] Hsettled.
Qed.

(** X12: where no path holds a directory, [deploy_domain] removes no path:
    whenever it returns, or exits at a missing file, every path that held a
    file before still holds one. *)
Theorem deploy_domain_keeps_paths
    (domain : string) (config : list location) (s s' : state)
    (o : outcome bool) :
  no_directories s ->
  deploy_domain domain config s = (o, s') ->
  settled o ->
  keeps_paths s s'.
Proof.
  unfold deploy_domain. rewrite deploy_locations_concat.
  apply deploy_file_types_keeps_paths.
Qed.

Lemma example_state_no_directories : no_directories example_state.
Proof.
  intros path f. unfold example_state, example_fs; cbn [fs]. intros H.
  repeat (apply lookup_insert_Some in H as [[_ <-] | [_ H]]; [reflexivity |]).
  by rewrite lookup_empty in H.
Qed.

Lemma deploy_domain_keeps_paths_witness :
  let run := deploy_domain "example.com"
               [[("cert", "/etc/x/cert.pem")]; [("privkey", "/etc/x/privkey.pem")]]
               example_state in
  settled run.1
  /\ is_Some (fs run.2 !! "/etc/x/cert.pem")
  /\ is_Some (fs run.2 !! "/etc/x/privkey.pem").
Proof.
  intros run.
  assert (Hsettled : settled run.1) by (by vm_compute).
  split; [exact Hsettled |].
  pose proof (deploy_domain_keeps_paths "example.com"
                [[("cert", "/etc/x/cert.pem")]; [("privkey", "/etc/x/privkey.pem")]]
                example_state run.2 run.1 example_state_no_directories
                (surjective_pairing run) Hsettled)
    as Hkeeps.
  split; apply Hkeeps; by eexists.
Defined.

(** A destination that is a directory is taken for a changed file: it is
    moved to the backup path with the files it holds, and a copy of the new
    file takes its place. *)
Lemma directory_destination_is_moved :
  let run := deploy_domain "example.com" [[("cert", "/srv/tls")]] example_tree in
  run.1 = Returns true
  /\ fs run.2 !! "/srv/tls/cert.pem" = None
  /\ fs run.2 !! "/srv/tls.bak/cert.pem" = Some served_cert
  /\ (content <$> fs run.2 !! "/srv/tls") = Some "NEW CERT".
Proof. vm_compute. repeat split; reflexivity. Qed.

(** *** The flag [deploy_domain] returns *)

Lemma deploy_file_types_false domain loc : forall deployed s s',
  deploy_file_types domain loc deployed s = (Returns false, s') ->
  deployed = false /\ s' = s.
Proof.
  induction loc as [|[file_type old_file] loc IH]; intros deployed s s'.
  - by intros [= <- <-].
  - cbn [deploy_file_types].
    erewrite bind_returns by apply os_path_exists_run.
    destruct (bool_decide _); cbn [negb]; [| done].
    erewrite bind_returns by apply os_path_exists_run.
    destruct (bool_decide _); cbn [negb]; [| done].
    destruct (deploy_file file_type old_file (LETSENCRYPT_ROOT domain file_type) s)
      as [[b | e |] s1] eqn:Hfile.
    + erewrite bind_returns by exact Hfile. intros Hrest.
      apply IH in Hrest as [Hflag ->].
      destruct b; [done |].
      by apply deploy_file_false in Hfile as ->.
    + erewrite bind_raises by exact Hfile. done.
    + erewrite bind_pending by exact Hfile. done.
Qed.

(** X13: when [deploy_domain] returns False it has written nothing: the
    machine is exactly as it was. *)
Theorem deploy_domain_false_is_untouched
    (domain : string) (config : list location) (s s' : state) :
  deploy_domain domain config s = (Returns false, s') -> s' = s.
Proof.
  unfold deploy_domain. rewrite deploy_locations_concat.
  intros H. by apply deploy_file_types_false in H as [_ ->].
Qed.

Lemma deploy_domain_false_is_untouched_witness :
  let s := mk_state (<["/etc/x/cert.pem" := mk_file "CERT" 33 33 0x81A0 100]>
                       (<["/etc/dehydrated/certs/example.com/cert.pem"
                            := mk_file "CERT" 0 0 0x81A4 200]> ∅))
                    0 0 300 [] in
  deploy_domain "example.com" [[("cert", "/etc/x/cert.pem")]] s
  = (Returns false, s).
Proof.
  intros s.
  pose (run := deploy_domain "example.com" [[("cert", "/etc/x/cert.pem")]] s).
  assert (Hrun : run = (Returns false, run.2)) by (by vm_compute).
  rewrite <- (deploy_domain_false_is_untouched _ _ _ _ Hrun) at 2.
  exact Hrun.
Defined.



(** *** One certificate *)

Lemma last_byte_append (a b : string) :
  b ≠ EmptyString -> last_byte (a +:+ b) = last_byte b.
Proof.
  intros Hb. induction a as [|c a IH]; [done |].
  rewrite append_cons. cbn [last_byte].
  destruct (a +:+ b) eqn:Hab; [| by rewrite <- IH].
  destruct a; [by rewrite append_nil in Hab | discriminate Hab].
Qed.

Lemma append_nonempty (a b : string) : b ≠ EmptyString -> a +:+ b ≠ EmptyString.
Proof. intros Hb. destruct a; [done | discriminate]. Qed.

(** The path of a new file is never the backup path of a destination: the
    one ends in [.pem], the other in [.bak]. *)
Lemma new_path_not_backup domain file_type old_file :
  LETSENCRYPT_ROOT domain file_type ≠ old_file +:+ ".bak".
Proof.
  intros H. apply (f_equal last_byte) in H. unfold LETSENCRYPT_ROOT in H.
  rewrite !last_byte_append in H
    by (repeat apply append_nonempty; discriminate).
  discriminate H.
Qed.

(** X15: for a domain with one location of one item whose deployed file
    and new file are regular files that differ in content and in size or in
    the [st_mtime] that [os.stat] reports, with no directory at the backup
    path and a privileged process, [deploy_domain] returns True; the backup
    path then holds the original file, the destination the new content with
    the original owner, group and permission bits, and the new file is still
    at its templated path. No choice of destination can make the backup path
    collide with the new file. *)
Theorem deploy_domain_one_item
    (domain file_type old_file : string) (fo fn : file) (s : state) :
  fs s !! old_file = Some fo ->
  fs s !! LETSENCRYPT_ROOT domain file_type = Some fn ->
  regular fo -> regular fn ->
  content fo ≠ content fn ->
  String.length (content fo) ≠ String.length (content fn)
    \/ st_mtime fo ≠ st_mtime fn ->
  (forall g, fs s !! (old_file +:+ ".bak") = Some g -> is_a S_IFDIR g = false) ->
  euid s = 0 ->
  exists s',
    deploy_domain domain [[(file_type, old_file)]] s = (Returns true, s')
    /\ fs s' !! (old_file +:+ ".bak") = Some fo
    /\ fs s' !! old_file = Some (deployed_file fo fn (now s))
    /\ fs s' !! LETSENCRYPT_ROOT domain file_type = Some fn.
Proof.
  intros Hold Hnew Hro Hrn Hcontent Hsig Hfree Hroot.
  assert (Hne : LETSENCRYPT_ROOT domain file_type ≠ old_file).
  { intros Heq. rewrite Heq, Hold in Hnew. by injection Hnew as ->. }
  destruct (deploy_file_run file_type old_file
              (LETSENCRYPT_ROOT domain file_type) fo fn s)
    as (s' & Hrun & Hdst & Hbackup & Hframe & _); try done.
  { by eapply filecmp_cmp_differ. }
  { by apply regular_is_a. }
  { apply new_path_not_backup. }
  exists s'. split.
  - unfold deploy_domain. rewrite deploy_locations_concat.
    cbn [concat app deploy_file_types].
    erewrite bind_returns by apply os_path_exists_run.
    rewrite bool_decide_eq_true_2 by done. cbn [negb].
    erewrite bind_returns by apply os_path_exists_run.
    rewrite bool_decide_eq_true_2 by done. cbn [negb].
    erewrite bind_returns by exact Hrun. reflexivity.
  - split; [exact Hbackup |]. split; [exact Hdst |].
    rewrite Hframe; [done | done | apply new_path_not_backup].
Qed.

Lemma deploy_domain_one_item_witness :
  exists s',
    deploy_domain "example.com" [[("cert", "/etc/x/cert.pem")]] example_state
      = (Returns true, s')
    /\ fs s' !! "/etc/x/cert.pem.bak" = Some served_cert
    /\ fs s' !! "/etc/x/cert.pem"
       = Some (mk_file "NEW CERT" 33 33 0x81A0 300).
Proof.
  destruct (deploy_domain_one_item "example.com" "cert" "/etc/x/cert.pem"
              served_cert issued_cert example_state)
    as (s' & Hrun & Hbackup & Hdst & _);
    [reflexivity | reflexivity | reflexivity | reflexivity | discriminate
    | right; discriminate | intros g Hg; discriminate Hg | reflexivity |].
  exists s'. split; [exact Hrun |]. split; [exact Hbackup |].
  rewrite Hdst. reflexivity.
Defined.

(** *** The configuration *)

Lemma deploy_domains_false doms : forall saw0 s s1,
  deploy_domains doms saw0 s = (Returns false, s1) ->
  saw0 = false /\ s1 = s.
Proof.
  induction doms as [|[domain locations] doms IH]; intros saw0 s s1.
  - by intros [= <- <-].
  - cbn [deploy_domains].
    destruct (deploy_domain domain locations s) as [[deployed | e |] s'] eqn:Hdom.
    + erewrite bind_returns by exact Hdom. intros Hrest.
      apply IH in Hrest as [Hflag ->].
      destruct deployed; [done |]. split; [done |].
      unfold deploy_domain in Hdom. rewrite deploy_locations_concat in Hdom.
      by apply deploy_file_types_false in Hdom as [_ ->].
    + erewrite bind_raises by exact Hdom. done.
    + erewrite bind_pending by exact Hdom. done.
Qed.

Section Run.

Variable home : string.
Variable yaml_load : string -> option config.
Variable subprocess_call : string -> option Z.

Lemma run_deployment_parsed f c doms s :
  fs s !! CONFIG_FILE home = Some f ->
  yaml_load (content f) = Some c ->
  domains c = Some doms ->
  run_deployment home yaml_load subprocess_call s =
    (saw_new_deployments <- deploy_domains doms false ;;
     if saw_new_deployments then
       actions <- key "post_actions" (post_actions c) ;;
       run_actions subprocess_call actions
     else ret tt) s.
Proof.
  intros Hconf Hyaml Hdoms. unfold run_deployment, parse_config.
  rewrite bind_assoc. erewrite bind_returns by apply os_path_exists_run.
  rewrite bool_decide_eq_true_2 by done. cbn [negb].
  rewrite !bind_assoc. erewrite bind_returns by (by apply os_stat_run).
  rewrite Hyaml. erewrite bind_returns by reflexivity.
  rewrite Hdoms. by erewrite bind_returns by reflexivity.
Qed.


(** X17: a run in which no domain reports a change returns with the
    machine exactly as it was: no file written, no action launched, whether
    or not the configuration has a [post_actions] key. *)
Theorem run_deployment_nothing_new
    (f : file) (c : config) (doms : list (string * list location))
    (s s1 : state) :
  fs s !! CONFIG_FILE home = Some f ->
  yaml_load (content f) = Some c ->
  domains c = Some doms ->
  deploy_domains doms false s = (Returns false, s1) ->
  run_deployment home yaml_load subprocess_call s = (Returns tt, s).
Proof.
  intros Hconf Hyaml Hdoms Hrun.
  rewrite (run_deployment_parsed f c doms) by done.
  erewrite bind_returns by exact Hrun.
  by apply deploy_domains_false in Hrun as [_ ->].
Qed.

(** X18: with a configuration that has no [post_actions] key, a run in
    which some domain reports a change ends in [KeyError] after the files
    have been deployed: they stay deployed and nothing is launched. *)
Theorem run_deployment_without_post_actions
    (f : file) (c : config) (doms : list (string * list location))
    (s s1 : state) :
  fs s !! CONFIG_FILE home = Some f ->
  yaml_load (content f) = Some c ->
  domains c = Some doms ->
  post_actions c = None ->
  deploy_domains doms false s = (Returns true, s1) ->
  run_deployment home yaml_load subprocess_call s
    = (Raises (KeyError "post_actions"), s1)
  /\ launched s1 = launched s.
Proof.
  intros Hconf Hyaml Hdoms Hactions Hrun.
  rewrite (run_deployment_parsed f c doms) by done.
  erewrite bind_returns by exact Hrun. rewrite Hactions.
  split; [done |].
  destruct (deploy_domains_reports doms false s) as [Hquiet _].
  by rewrite Hrun in Hquiet.
Qed.

End Run.


Lemma run_deployment_nothing_new_witness :
  let cfg := mk_config (Some [("example.net", [])]) None in
  run_deployment "/root" (fun _ => Some cfg) (fun _ => Some 0) example_machine
  = (Returns tt, example_machine).
Proof.
  intros cfg.
  apply (run_deployment_nothing_new "/root" (fun _ => Some cfg) (fun _ => Some 0)
           (mk_file "domains: ..." 0 0 0x81A4 50) cfg [("example.net", [])]
           example_machine example_machine); reflexivity.
Defined.

Lemma run_deployment_without_post_actions_witness :
  let cfg := mk_config (Some [("example.com", [[("cert", "/etc/x/cert.pem")]])])
                       None in
  exists s1,
    run_deployment "/root" (fun _ => Some cfg) (fun _ => Some 0) example_machine
      = (Raises (KeyError "post_actions"), s1)
    /\ fs s1 !! "/etc/x/cert.pem.bak" = Some served_cert.
Proof.
  intros cfg.
  pose (s1 := (deploy_domains [("example.com", [[("cert", "/etc/x/cert.pem")]])]
                 false example_machine).2).
  destruct (run_deployment_without_post_actions "/root" (fun _ => Some cfg)
              (fun _ => Some 0) (mk_file "domains: ..." 0 0 0x81A4 50) cfg
              [("example.com", [[("cert", "/etc/x/cert.pem")]])]
              example_machine s1) as [Hrun _];
    [reflexivity | reflexivity | reflexivity | reflexivity | by vm_compute |].
  exists s1. split; [exact Hrun | by vm_compute].
Defined.

End DeployMore.

(** ** Properties of the dispatcher *)

Module MainFacts.

Import Hook HookFacts Main.

Section Run.

Variable home : string.
Variable yaml_load : string -> option Deploy.config.
Variable subprocess_call : string -> option Z.
Variable replies : list resolver_reply.

Lemma operations_unknown name :
  name ∉ operation_names ->
  operations home yaml_load subprocess_call replies !! name = None.
Proof. intros Hname. by apply not_elem_of_list_to_map_1. Qed.

(** X19: without an operation name [run_hook] raises [IndexError], and
    with a name that is not one of the seven it knows it raises [KeyError]
    for that name; in both cases nothing has been done. *)
Theorem run_hook_unknown_operation (p : process) :
  run_hook home yaml_load subprocess_call replies [] p
    = (Uncaught IndexError, p)
  /\ forall name rest,
       name ∉ operation_names ->
       run_hook home yaml_load subprocess_call replies (name :: rest) p
         = (Uncaught (KeyError name), p).
Proof.
  split; [done |]. intros name rest Hname.
  unfold run_hook. cbn [lookup list_lookup].
  by rewrite operations_unknown.
Qed.

(** X20: the operations that only report leave the process as it was,
    whatever their arguments. [startup_hook] and [exit_hook] always complete;
    [unchanged_cert] completes when it is given a domain and raises
    [IndexError] otherwise; [invalid_challenge] completes when it is given
    exactly a domain and an error text and raises [ValueError] otherwise. *)
Theorem reporting_operations_change_nothing
    (rest : list string) (p : process) :
  run_hook home yaml_load subprocess_call replies ("startup_hook" :: rest) p
    = (Completed, p)
  /\ run_hook home yaml_load subprocess_call replies ("exit_hook" :: rest) p
       = (Completed, p)
  /\ run_hook home yaml_load subprocess_call replies ("unchanged_cert" :: rest) p
       = (if bool_decide (rest = []) then Uncaught IndexError else Completed, p)
  /\ run_hook home yaml_load subprocess_call replies
       ("invalid_challenge" :: rest) p
       = (if bool_decide (length rest = 2%nat) then Completed else ValueError, p).
Proof.
  repeat split.
  - by destruct rest as [|a rest].
  - destruct rest as [|a [|b [|c rest]]]; done.
Qed.

(** X21: [deploy_cert] with fewer than four arguments raises
    [IndexError] before the deployment starts; with four or more, the
    arguments are not used: the run is the same for any such arguments, and
    it leaves the globals of the hook and the provider alone. *)
Theorem deploy_cert_ignores_its_arguments
    (args args' : list string) (p : process) :
  ((length args < 4)%nat ->
   run_hook home yaml_load subprocess_call replies ("deploy_cert" :: args) p
     = (Uncaught IndexError, p))
  /\ ((4 <= length args)%nat -> (4 <= length args')%nat ->
      run_hook home yaml_load subprocess_call replies ("deploy_cert" :: args) p
      = run_hook home yaml_load subprocess_call replies
          ("deploy_cert" :: args') p)
  /\ globals
       (run_hook home yaml_load subprocess_call replies
          ("deploy_cert" :: args) p).2 = globals p.
Proof.
  assert (Hrun : forall l,
            run_hook home yaml_load subprocess_call replies ("deploy_cert" :: l) p
            = deploy_cert home yaml_load subprocess_call l p) by done.
  rewrite !Hrun. unfold deploy_cert, in_deploy.
  repeat split.
  - intros Hlen. destruct args as [|a [|b [|c [|d args]]]]; try done.
    simpl in Hlen. lia.
  - intros Hlen Hlen'.
    destruct args as [|a [|b [|c [|d args]]]]; try (simpl in Hlen; lia).
    destruct args' as [|a' [|b' [|c' [|d' args']]]]; try (simpl in Hlen'; lia).
    reflexivity.
  - destruct args as [|a [|b [|c [|d args]]]]; try done.
    cbn [lookup list_lookup].
    by destruct (Deploy.run_deployment _ _ _ _).
Qed.

(** X22: a hook process that is asked for [deploy_challenge] with its
    counter at 0, as every fresh process has it, completes if the resolver
    confirms the token in at least three of its replies and is still polling
    after all of them otherwise. The deployment machine is not touched. *)
Theorem run_hook_deploy_challenge
    (domain x token : string) (rest : list string) (p : process) :
  DNS_COUNTER (globals p) = 0 ->
  let run := run_hook home yaml_load subprocess_call replies
               ("deploy_challenge" :: domain :: x :: token :: rest) p in
  run.1 = (if bool_decide (3 <= hits token replies)%nat
           then Completed else StillPolling)
  /\ machine run.2 = machine p.
Proof.
  intros Hzero run.
  assert (Hrun : run = in_hook
                         (Hook.deploy_challenge (domain :: x :: token :: rest)
                            replies) p) by done.
  rewrite Hrun. clear Hrun run. unfold in_hook.
  destruct (HookMore.deploy_challenge_prelude domain x token rest replies
              (globals p)) as (s3 & before & -> & _ & Hcounter & _).
  rewrite Hzero in Hcounter.
  case_bool_decide as Hhits.
  - apply hits_split in Hhits as (pre & hit & post & -> & Hpre & Hhit).
    rewrite wait_for_propagation_returns by (rewrite ?Hcounter, ?Hpre; done).
    done.
  - rewrite wait_for_propagation_pending by (left; rewrite Hcounter; lia).
    done.
Qed.

End Run.

Lemma run_hook_unknown_operation_witness :
  let p := mk_process (initial_state "key" []) Deploy.example_state in
  ("renew" ∉ operation_names)
  /\ run_hook "/root" (fun _ => None) (fun _ => Some 0) []
       ["renew"; "example.com"] p
     = (Uncaught (KeyError "renew"), p).
Proof.
  intros p.
  assert (Hname : "renew" ∉ operation_names).
  { unfold operation_names. rewrite !not_elem_of_cons, elem_of_nil.
    repeat split; (discriminate || tauto). }
  split; [exact Hname |].
  destruct (run_hook_unknown_operation "/root" (fun _ => None) (fun _ => Some 0)
              [] p) as [_ Hunknown].
  by apply Hunknown.
Defined.

Lemma deploy_cert_ignores_its_arguments_witness :
  let p := mk_process (initial_state "key" []) Deploy.example_state in
  (length ["example.com"; "privkey.pem"] < 4)%nat
  /\ run_hook "/root" (fun _ => None) (fun _ => Some 0) []
       ["deploy_cert"; "example.com"; "privkey.pem"] p
     = (Uncaught IndexError, p).
Proof.
  intros p.
  assert (Hlen : (length ["example.com"; "privkey.pem"] < 4)%nat)
    by (simpl; lia).
  split; [exact Hlen |].
  destruct (deploy_cert_ignores_its_arguments "/root" (fun _ => None)
              (fun _ => Some 0) [] ["example.com"; "privkey.pem"] [] p)
    as [Hshort _].
  by apply Hshort.
Defined.

Lemma run_hook_deploy_challenge_witness :
  let p := mk_process (initial_state "key" []) Deploy.example_state in
  let replies := [Answer [["tokenABC"]]; Answer []; Answer [["tokenABC"]];
                  Answer [["tokenABC"]]] in
  DNS_COUNTER (globals p) = 0
  /\ (run_hook "/root" (fun _ => None) (fun _ => Some 0) replies
        ["deploy_challenge"; "example.com"; "unused"; "tokenABC"] p).1
     = Completed.
Proof.
  intros p replies. split; [reflexivity |].
  destruct (run_hook_deploy_challenge "/root" (fun _ => None) (fun _ => Some 0)
              replies "example.com" "unused" "tokenABC" [] p eq_refl)
    as [Hexit _].
  rewrite Hexit. reflexivity.
Defined.

End MainFacts.
